(** * SageMaker example notebooks: polling loops and the EOJ dispatcher

    A shallow embedding of the glue code found in the example notebooks:

    - the "Digital Farming" geospatial notebook: [start_earth_observation_job],
      [export_earth_observation_job], the export-monitoring loop and the
      rescale/clamp step of [visualize_cogt];
    - the pipeline notebook's cloud function [lambda_handler]
      (written to [./code/eoj_lambda.py]);
    - the shadow-variant notebook: the [create_endpoint_config] request and
      [wait_for_endpoint_in_service].

    The vendor services are not part of the repository.  They appear here as
    an oracle that answers every request from the history of effects so far;
    every statement below holds for all oracles unless it names one.

    Layout: Part I holds the definitions, Part II the properties. *)

From Stdlib Require Import ZArith Ascii String List Bool Lia Floats Uint63.
From stdpp Require Import base option list gmap strings.
Import ListNotations.

Open Scope string_scope.
Open Scope list_scope.

(* ===================================================================== *)
(** * Part I: definitions                                                  *)
(* ===================================================================== *)

(** ** Python values, exceptions and effects *)

Module Py.

(** JSON-like Python values: what a cloud-function event, a request
    argument or a decoded message body can hold. *)
#[warnings="-register-all"]
Inductive value : Type :=
| VNone
| VBool (b : bool)
| VInt (z : Z)
| VFloat (f : float)
| VStr (s : string)
| VList (l : list value)
| VDict (d : gmap string value).

(** The exceptions the embedded code can meet.  [UnboundLocalError] is a
    subclass of [NameError] in Python; [is_NameError] records that. *)
Inductive exn : Type :=
| KeyError (key : string)
| IndexError (what : string)
| TypeError (what : string)
| ValueError (what : string)
| UnboundLocalError (var : string)
| AttributeError (attr : string)
| ClientError (code msg : string)
| Exception (msg : string).

Definition is_NameError (e : exn) : bool :=
  match e with UnboundLocalError _ => true | _ => false end.

Definition is_ClientError (e : exn) : bool :=
  match e with ClientError _ _ => true | _ => false end.

(** [needle in hay] on Python strings. *)
Fixpoint contains (needle hay : string) : bool :=
  String.prefix needle hay
  || match hay with
     | EmptyString => false
     | String _ hay' => contains needle hay'
     end.

(** A client of a vendor service, as built by [create_client] /
    [boto3.client]. *)
Record client : Type := Client {
  service_name : string;
  region_name : value
}.

(** One request: the client, the method looked up on it, and the keyword
    arguments in the order the source writes them. *)
Record call : Type := Call {
  call_client : client;
  call_method : string;
  call_kwargs : list (string * value)
}.

(** Log records, one constructor per [logger] call of the source; [render]
    gives the text of the f-string. *)
Inductive loglevel : Type := Debug | Info.

Inductive logmsg : Type :=
| WillCreate (dump : string)
| Starting (name : string)
| CreatedArn (arn : string)
| WillExport (dump : string)
| Exporting (arn : string)
| ExportedArn (arn : string)
| WillCheck (dump : string)
| Checking (arn : string)
| EojCompleted
| ExportSucceeded
| EojFailed
| StillRunning (status : string)
| FinalArn (arn : string).

Definition nl : string := String (Ascii.ascii_of_nat 10) EmptyString.

Definition render (m : logmsg) : string :=
  match m with
  | WillCreate d => "Will create EOJ with event:" +:+ nl +:+ d
  | Starting n => "Starting EOJ " +:+ n
  | CreatedArn a => "Create eoj_arn: " +:+ a +:+ nl
  | WillExport d => "Will export EOJ with event:" +:+ nl +:+ d
  | Exporting a => "Exporting EOJ with Arn " +:+ a
  | ExportedArn a => "Export eoj_arn: " +:+ a +:+ nl
  | WillCheck d => "Will check status of EOJ with event:" +:+ nl +:+ d
  | Checking a => "Check EOJ or export with ARN: " +:+ a
  | EojCompleted => "EOJ completed, resuming pipeline..."
  | ExportSucceeded => "Export EOJ succeeded, resuming pipeline..."
  | EojFailed => "EOJ or export failed, stopping pipeline..."
  | StillRunning s => "EOJ or export with status: " +:+ s
  | FinalArn a => "eoj_arn: " +:+ a +:+ nl
  end.

(** A service answers a request with a response dictionary or with an
    error, which the SDK raises as [ClientError]. *)
Inductive api_result : Type :=
| ApiOk (r : gmap string value)
| ApiError (code msg : string).

(** Observable effects, in the order they happen; a request is recorded
    together with its answer.  [print] calls of the notebooks
    (time-stamped progress lines) are output only and are left out. *)
Inductive effect : Type :=
| Request (c : call) (a : api_result)
| Sleep (seconds : Z)
| Log (level : loglevel) (m : logmsg).

Definition trace : Type := list effect.

(** The world outside the repository: the services' answers, and the
    Python library functions whose text is not part of the code base. *)
Record env : Type := Env {
  (** answer of a service to a request, given everything done so far *)
  service : trace -> call -> api_result;
  (** [json.dumps] on an event *)
  json_dumps : gmap string value -> string;
  (** [json.loads] on a string *)
  json_loads : string -> exn + value;
  (** [ast.literal_eval] on a string *)
  parse_literal : string -> exn + value;
  (** [str] on a value that is not a string *)
  py_repr : value -> string
}.

(** Outcome of running a piece of code: it returns, it raises, or the
    step budget of a polling loop ran out while it was still polling. *)
Inductive result (A : Type) : Type :=
| Done (a : A)
| Raised (e : exn)
| OutOfFuel.
Arguments Done {A} a.
Arguments Raised {A} e.
Arguments OutOfFuel {A}.

(** State-and-error monad over the trace of effects. *)
Definition M (A : Type) : Type := trace -> result A * trace.

Definition ret {A} (a : A) : M A := fun t => (Done a, t).

Definition bind {A B} (c : M A) (k : A -> M B) : M B :=
  fun t =>
    match c t with
    | (Done a, t') => k a t'
    | (Raised e, t') => (Raised e, t')
    | (OutOfFuel, t') => (OutOfFuel, t')
    end.

Definition raise {A} (e : exn) : M A := fun t => (Raised e, t).

Definition out_of_fuel {A} : M A := fun t => (OutOfFuel, t).

Definition emit (e : effect) : M unit := fun t => (Done tt, t ++ [e]).

(** [try: c except <handles>: h e] *)
Definition try_except {A} (c : M A) (handles : exn -> bool) (h : exn -> M A)
  : M A :=
  fun t =>
    match c t with
    | (Raised e, t') => if handles e then h e t' else (Raised e, t')
    | r => r
    end.

Definition lift {A} (r : exn + A) : M A :=
  match r with inl e => raise e | inr a => ret a end.

(** The operations of the SDK clients that the notebooks call.  A client
    has a method for each operation of its service and raises
    [AttributeError] on any other name.  The lists need not be complete:
    the only other name the code looks up is
    [send_pipeline_execution_step_sucess], which is no operation of the
    orchestration service. *)
Definition client_methods (service : string) : list string :=
  if service =? "sagemaker-geospatial" then
    [ "start_earth_observation_job";
      "export_earth_observation_job";
      "get_earth_observation_job" ]
  else if service =? "sagemaker" then
    [ "create_model";
      "create_endpoint_config";
      "create_endpoint";
      "update_endpoint";
      "describe_endpoint";
      "send_pipeline_execution_step_success";
      "send_pipeline_execution_step_failure" ]
  else [].

Definition has_method (c : client) (m : string) : bool :=
  existsb (String.eqb m) (client_methods (service_name c)).

(** [c.m] : attribute lookup, before any argument is evaluated. *)
Definition getattr (c : client) (m : string) : M unit :=
  if has_method c m then ret tt else raise (AttributeError m).

(** [v == s] for a string literal [s]. *)
Definition eq_str (v : value) (s : string) : bool :=
  match v with VStr s' => s' =? s | _ => false end.

(** The request itself: it is recorded, and the service answers from the
    history before it; a service error surfaces as [ClientError]. *)
Definition invoke (E : env) (c : client) (m : string)
           (kwargs : list (string * value)) : M (gmap string value) :=
  fun t =>
    let rq := Call c m kwargs in
    let a := service E t rq in
    match a with
    | ApiOk r => (Done r, t ++ [Request rq a])
    | ApiError code msg => (Raised (ClientError code msg), t ++ [Request rq a])
    end.

Definition sleep (seconds : Z) : M unit := emit (Sleep seconds).

Definition log (l : loglevel) (m : logmsg) : M unit := emit (Log l m).

(** [str(v)] *)
Definition py_str (E : env) (v : value) : string :=
  match v with VStr s => s | _ => py_repr E v end.

(** [v[key]] for a string key. *)
Definition py_getitem (v : value) (key : string) : M value :=
  match v with
  | VDict d =>
      match d !! key with
      | Some x => ret x
      | None => raise (KeyError key)
      end
  | VStr _ => raise (TypeError "string indices must be integers")
  | VList _ => raise (TypeError "list indices must be integers or slices")
  | _ => raise (TypeError "object is not subscriptable")
  end.

(** [d[key]] on a dictionary. *)
Definition item (d : gmap string value) (key : string) : M value :=
  py_getitem (VDict d) key.

(** [key in d] *)
Definition has_key (d : gmap string value) (key : string) : bool :=
  bool_decide (is_Some (d !! key)).

Fixpoint chars (s : string) : list value :=
  match s with
  | EmptyString => []
  | String a s' => VStr (String a EmptyString) :: chars s'
  end.

(** The items a [for] loop draws from a value. *)
Definition py_iter (v : value) : M (list value) :=
  match v with
  | VList l => ret l
  | VStr s => ret (chars s)
  | VDict d => ret (VStr <$> (map_to_list d).*1)
  | _ => raise (TypeError "object is not iterable")
  end.

(** [json.loads(v)] *)
Definition loads (E : env) (v : value) : M value :=
  match v with
  | VStr s => lift (json_loads E s)
  | _ => raise (TypeError "the JSON object must be str, bytes or bytearray")
  end.

(** [ast.literal_eval(v)] *)
Definition literal_eval (E : env) (v : value) : M value :=
  match v with
  | VStr s => lift (parse_literal E s)
  | _ => raise (ValueError "malformed node or string")
  end.

End Py.

Import Py.

Notation "x <- c1 ;; c2" := (bind c1 (fun x => c2))
  (at level 100, c1 at next level, c2 at level 200, only parsing).
Notation "c1 ;; c2" := (bind c1 (fun _ => c2))
  (at level 100, c2 at level 200, only parsing).

(** ** The geospatial notebook *)

Module Geospatial.

Section Notebook.

Variable E : env.
(** The notebook's globals: the region of the session, the execution
    role and the S3 destination. *)
Variable region : value.
Variables role bucket prefix : string.

(** [session.create_client(service_name="sagemaker-geospatial", ...)] *)
Definition gsClient : client := Client "sagemaker-geospatial" region.

(** The [while] loop of [start_earth_observation_job]:
    [gs_get_eoj_resp] is the response of the latest poll. *)
Fixpoint wait_while_in_progress (fuel : nat) (eoj_arn : value)
         (gs_get_eoj_resp : gmap string value) : M unit :=
  status <- item gs_get_eoj_resp "Status" ;;
  if eq_str status "IN_PROGRESS" then
    match fuel with
    | O => out_of_fuel
    | S fuel' =>
        sleep 60 ;;
        getattr gsClient "get_earth_observation_job" ;;
        resp <- invoke E gsClient "get_earth_observation_job"
                       [("Arn", eoj_arn)] ;;
        wait_while_in_progress fuel' eoj_arn resp
    end
  else ret tt.

Definition start_earth_observation_job (fuel : nat)
           (eoj_name role' : string) (eoj_input_config eoj_config : value)
  : M value :=
  getattr gsClient "start_earth_observation_job" ;;
  response <- invoke E gsClient "start_earth_observation_job"
                     [("Name", VStr eoj_name);
                      ("ExecutionRoleArn", VStr role');
                      ("InputConfig", eoj_input_config);
                      ("JobConfig", eoj_config)] ;;
  eoj_arn <- item response "Arn" ;;
  wait_while_in_progress fuel eoj_arn {[ "Status" := VStr "IN_PROGRESS" ]} ;;
  ret eoj_arn.

Definition export_earth_observation_job
           (eoj_arn : value) (role' bucket' prefix' task_suffix : string)
  : M unit :=
  getattr gsClient "export_earth_observation_job" ;;
  response <- invoke E gsClient "export_earth_observation_job"
                [("Arn", eoj_arn);
                 ("ExecutionRoleArn", VStr role');
                 ("OutputConfig",
                  VDict {[ "S3Data" :=
                    VDict {[ "S3Uri" :=
                               VStr ("s3://" +:+ bucket' +:+ "/" +:+ prefix'
                                     +:+ "/" +:+ task_suffix +:+ "/");
                             "KmsKeyId" := VStr "" ]} ]})] ;;
  export_arn <- item response "Arn" ;;
  ret tt.

(** *** The export-monitoring cell *)

Definition eoj_suffixes : list string :=
  ["temp_stat"; "stacking"; "land_cover"].

(** [all(i == "Exported" for i in eoj_status)] *)
Definition all_exported (eoj_status : list string) : bool :=
  forallb (fun i => i =? "Exported") eoj_status.

(** The body of the [for] loop for job [j]; it returns the updated
    [eoj_status]. *)
Definition check_eoj (j : nat) (eoj : value) (eoj_status : list string)
  : M (list string) :=
  getattr gsClient "get_earth_observation_job" ;;
  gs_get_eoj_resp <- invoke E gsClient "get_earth_observation_job"
                            [("Arn", eoj)] ;;
  status <- item gs_get_eoj_resp "Status" ;;
  if eq_str status "COMPLETED" then
    if negb (has_key gs_get_eoj_resp "ExportStatus") then
      suffix <- match eoj_suffixes !! j with
                | Some s => ret s
                | None => raise (IndexError "list index out of range")
                end ;;
      export_earth_observation_job eoj role bucket prefix suffix ;;
      ret eoj_status
    else
      es <- item gs_get_eoj_resp "ExportStatus" ;;
      if eq_str es "IN_PROGRESS" then
        ret (<[ j := "Exporting" ]> eoj_status)
      else
        es' <- item gs_get_eoj_resp "ExportStatus" ;;
        if eq_str es' "SUCCEEDED" then
          ret (<[ j := "Exported" ]> eoj_status)
        else raise (Exception "Error exporting")
  else
    status' <- item gs_get_eoj_resp "Status" ;;
    if eq_str status' "IN_PROGRESS" then
      ret (<[ j := "In progress" ]> eoj_status)
    else raise (Exception "Error with the EOJ").

(** [for j, eoj in enumerate(EOJs)], from index [j] on. *)
Fixpoint for_each_eoj (j : nat) (eojs : list value)
         (eoj_status : list string) : M (list string) :=
  match eojs with
  | [] => ret eoj_status
  | eoj :: rest =>
      eoj_status' <- check_eoj j eoj eoj_status ;;
      for_each_eoj (S j) rest eoj_status'
  end.

(** The [while not all(...)] loop. *)
Fixpoint monitor (fuel : nat) (EOJs : list value)
         (eoj_status : list string) : M (list string) :=
  if negb (all_exported eoj_status) then
    match fuel with
    | O => out_of_fuel
    | S fuel' =>
        eoj_status' <- for_each_eoj 0 EOJs eoj_status ;;
        if all_exported eoj_status' then ret eoj_status'
        else sleep 30 ;; monitor fuel' EOJs eoj_status'
    end
  else ret eoj_status.

(** The whole cell, for the three jobs started before. *)
Definition export_monitoring (fuel : nat)
           (ts_eoj_arn s_eoj_arn lc_eoj_arn : value) : M (list string) :=
  let EOJs := [ts_eoj_arn; s_eoj_arn; lc_eoj_arn] in
  monitor fuel EOJs (replicate (length EOJs) "").

(** *** [visualize_cogt] *)

(** A raster as read by [rasterio]: bands, rows, columns. *)
Definition array (A : Type) : Type := list (list (list A)).

Definition array_map {A B} (f : A -> B) (arr : array A) : array B :=
  map (map (map f)) arr.


(** The array handed to [show]: the stored unsigned 16-bit integers, or
    the 64-bit floats the division produces. *)
Inductive plotted : Type :=
| Stored (arr : array Z)
| Reflectance (arr : array float).

(** One element of [arr / 10000] on a [uint16] array: true division in
    binary64. *)
Definition divide_by_10000 (x : Z) : float :=
  PrimFloat.div (PrimFloat.of_uint63 (Uint63.of_Z x)) 10000%float.

(** One element of [arr[arr > 1] = 1]. *)
Definition replace_over_1 (v : float) : float :=
  if PrimFloat.ltb 1%float v then 1%float else v.

(** The [if band != "visual"] block. *)
Definition rescale (band : string) (arr : array Z) : plotted :=
  if negb (band =? "visual") then
    Reflectance (array_map replace_over_1 (array_map divide_by_10000 arr))
  else Stored arr.

(** [s.split("/", 1)[1]] *)
Fixpoint after_first_slash (s : string) : option string :=
  match s with
  | EmptyString => None
  | String c s' => if Ascii.eqb c "/"%char then Some s'
                   else after_first_slash s'
  end.

(** The [for] loop over the listed objects; [i] counts the images shown
    so far.  The result lists the arrays passed to [show], in order. *)
Fixpoint show_images (read : string -> array Z) (band : string)
         (number : Z) (i : Z) (keys : list string) : list plotted :=
  match keys with
  | [] => []
  | key :: rest =>
      if contains (band +:+ ".tif") key then
        let i := (i + 1)%Z in
        let tif := "s3://" +:+ bucket +:+ "/" +:+ key in
        let arr := rescale band (read tif) in
        arr :: (if (i =? number)%Z then []
                else show_images read band number i rest)
      else show_images read band number i rest
  end.

(** [objects] lists the keys of the bucket under a prefix; [read] is
    [rasterio]'s down-sampled read of a stored image. *)
Definition visualize_cogt (objects : string -> list string)
           (read : string -> array Z)
           (task eoj_arn band : string) (number : Z) : M (list plotted) :=
  getattr gsClient "get_earth_observation_job" ;;
  gs_get_eoj_resp <- invoke E gsClient "get_earth_observation_job"
                            [("Arn", VStr eoj_arn)] ;;
  es <- item gs_get_eoj_resp "ExportStatus" ;;
  if eq_str es "SUCCEEDED" then
    job_id <- match after_first_slash eoj_arn with
              | Some s => ret s
              | None => raise (IndexError "list index out of range")
              end ;;
    ret (show_images read band number 0
           (objects (prefix +:+ "/" +:+ task +:+ "/" +:+ job_id
                     +:+ "/output/consolidated/")))
  else
    item gs_get_eoj_resp "ExportStatus" ;;
    ret [].

End Notebook.

End Geospatial.

(** ** The shadow-variant notebook *)

Module ShadowVariant.

Section Notebook.

Variable E : env.
(** The region of the notebook's session. *)
Variable region : value.

(** [sm = boto3.Session().client("sagemaker")] *)
Definition sm : client := Client "sagemaker" region.

(** [now], [now2]: the two readings of the clock, formatted with
    [%Y-%m-%d-%H-%M-%S]. *)
Definition model_name (now : string) : string :=
  "DEMO-xgb-churn-pred-" +:+ now.

Definition model_name2 (now2 : string) : string :=
  "DEMO-xgb-churn-pred2-" +:+ now2.

Definition production_variant_name : string := "production".
Definition shadow_variant_name : string := "shadow".

(** The cell that creates the endpoint configuration. *)
Definition create_shadow_endpoint_config
           (model_name' model_name2' now : string) : M unit :=
  let ep_config_name := "Shadow-EpConfig-" +:+ now in
  getattr sm "create_endpoint_config" ;;
  create_endpoint_config_response <-
    invoke E sm "create_endpoint_config"
      [("EndpointConfigName", VStr ep_config_name);
       ("ProductionVariants",
        VList [VDict {[ "VariantName" := VStr production_variant_name;
                        "ModelName" := VStr model_name';
                        "InstanceType" := VStr "ml.m5.xlarge";
                        "InitialInstanceCount" := VInt 2;
                        "InitialVariantWeight" := VInt 1 ]}]);
       ("ShadowProductionVariants",
        VList [VDict {[ "VariantName" := VStr shadow_variant_name;
                        "ModelName" := VStr model_name2';
                        "InstanceType" := VStr "ml.m5.xlarge";
                        "InitialInstanceCount" := VInt 1;
                        "InitialVariantWeight" := VFloat 0.5%float ]}])] ;;
  item create_endpoint_config_response "EndpointConfigArn" ;;
  ret tt.

(** [status in ["InService", "Failed"]] *)
Definition in_service_or_failed (status : value) : bool :=
  existsb (eq_str status) ["InService"; "Failed"].

(** The [while True] loop; one unit of fuel per iteration. *)
Fixpoint wait_for_endpoint_in_service (fuel : nat) (endpoint_name : string)
  : M unit :=
  match fuel with
  | O => out_of_fuel
  | S fuel' =>
      getattr sm "describe_endpoint" ;;
      details <- invoke E sm "describe_endpoint"
                        [("EndpointName", VStr endpoint_name)] ;;
      status <- item details "EndpointStatus" ;;
      if in_service_or_failed status then ret tt
      else sleep 30 ;; wait_for_endpoint_in_service fuel' endpoint_name
  end.

End Notebook.

End ShadowVariant.

(** ** The cloud function [eoj_lambda.py] *)

Module EojLambda.

Section Handler.

Variable E : env.

(** The branch that creates a new job. *)
Definition create_eoj (gsClient : client) (event : gmap string value)
  : M (gmap string value) :=
  log Debug (WillCreate (json_dumps E event)) ;;
  cfg <- item event "eoj_input_config" ;;
  input_config <-
    (if contains "RasterDataCollectionQuery" (py_str E cfg) then
       cfg1 <- item event "eoj_input_config" ;;
       v <- literal_eval E cfg1 ;;
       ret (Some v)
     else
       cfg2 <- item event "eoj_input_config" ;;
       if contains "arn" (py_str E cfg2) then
         cfg3 <- item event "eoj_input_config" ;;
         ret (Some (VDict {[ "PreviousEarthObservationJobArn" := cfg3 ]}))
       else ret None) ;;
  name <- item event "eoj_name" ;;
  log Info (Starting (py_str E name)) ;;
  getattr gsClient "start_earth_observation_job" ;;
  name' <- item event "eoj_name" ;;
  role <- item event "role" ;;
  input_config' <- match input_config with
                   | Some v => ret v
                   | None => raise (UnboundLocalError "input_config")
                   end ;;
  eoj_config <- item event "eoj_config" ;;
  job_config <- literal_eval E eoj_config ;;
  response <- invoke E gsClient "start_earth_observation_job"
                     [("Name", name');
                      ("ExecutionRoleArn", role);
                      ("InputConfig", input_config');
                      ("JobConfig", job_config)] ;;
  arn <- item response "Arn" ;;
  log Info (CreatedArn (py_str E arn)) ;;
  sleep 3 ;;
  ret response.

(** The branch that exports a job. *)
Definition export_eoj (gsClient : client) (event : gmap string value)
  : M (gmap string value) :=
  log Debug (WillExport (json_dumps E event)) ;;
  eoj_arn <- item event "eoj_arn" ;;
  log Info (Exporting (py_str E eoj_arn)) ;;
  getattr gsClient "export_earth_observation_job" ;;
  eoj_arn' <- item event "eoj_arn" ;;
  role <- item event "role" ;;
  cfg <- item event "eoj_output_config" ;;
  output_config <- literal_eval E cfg ;;
  response <- invoke E gsClient "export_earth_observation_job"
                     [("Arn", eoj_arn');
                      ("ExecutionRoleArn", role);
                      ("OutputConfig", output_config)] ;;
  arn <- item response "Arn" ;;
  log Info (ExportedArn (py_str E arn)) ;;
  ret response.

(** The [if]/[elif] chain on the status of the job just polled: the
    callback for [token]. *)
Definition report_status (region token : value)
           (response : gmap string value) : M unit :=
  status <- item response "Status" ;;
  if eq_str status "COMPLETED" then
    log Info EojCompleted ;;
    let sagemaker := Client "sagemaker" region in
    getattr sagemaker "send_pipeline_execution_step_success" ;;
    v <- item response "Status" ;;
    invoke E sagemaker "send_pipeline_execution_step_success"
           [("CallbackToken", token);
            ("OutputParameters",
             VList [VDict {[ "Name" := VStr "eoj_status";
                             "Value" := v ]}])] ;;
    ret tt
  else
    status <- item response "Status" ;;
    if eq_str status "SUCCEEDED" then
      log Info ExportSucceeded ;;
      let sagemaker := Client "sagemaker" region in
      getattr sagemaker "send_pipeline_execution_step_sucess" ;;
      v <- item response "Status" ;;
      invoke E sagemaker "send_pipeline_execution_step_sucess"
             [("CallbackToken", token);
              ("OutputParameters",
               VList [VDict {[ "Name" := VStr "export_eoj_status";
                               "Value" := v ]}])] ;;
      ret tt
    else
      status <- item response "Status" ;;
      if eq_str status "FAILED" then
        log Info EojFailed ;;
        let sagemaker := Client "sagemaker" region in
        getattr sagemaker "send_pipeline_execution_step_failure" ;;
        details <- item response "ErrorDetails" ;;
        invoke E sagemaker "send_pipeline_execution_step_failure"
               [("CallbackToken", token);
                ("FailureReason", details)] ;;
        ret tt
      else
        v <- item response "Status" ;;
        log Info (StillRunning (py_str E v)) ;;
        raise (Exception "EOJ or export still running...").

(** The body of [for record in event["Records"]]; it returns the
    value [response] is bound to afterwards. *)
Definition check_record (region : value) (gsClient : client)
           (record : value) : M (gmap string value) :=
  body <- py_getitem record "body" ;;
  payload <- loads E body ;;
  token <- py_getitem payload "token" ;;
  arguments <- py_getitem payload "arguments" ;;
  eoj_arn <- py_getitem arguments "eoj_arn" ;;
  log Info (Checking (py_str E eoj_arn)) ;;
  getattr gsClient "get_earth_observation_job" ;;
  response <- invoke E gsClient "get_earth_observation_job"
                     [("Arn", eoj_arn)] ;;
  report_status region token response ;;
  ret response.

(** The [for] loop; [response] is [None] while the name is unbound. *)
Fixpoint check_records (region : value) (gsClient : client)
         (records : list value) (response : option (gmap string value))
  : M (option (gmap string value)) :=
  match records with
  | [] => ret response
  | record :: rest =>
      response' <- check_record region gsClient record ;;
      check_records region gsClient rest (Some response')
  end.

(** The body of the first [try]; the result is the binding of the local
    name [response] when the body ends ([None]: unbound). *)
Definition dispatch (event : gmap string value)
  : M (option (gmap string value)) :=
  region <- (if has_key event "region" then item event "region"
             else ret (VStr "us-west-2")) ;;
  let gsClient := Client "sagemaker-geospatial" region in
  if has_key event "eoj_name" then
    response <- create_eoj gsClient event ;;
    ret (Some response)
  else if has_key event "eoj_output_config" then
    response <- export_eoj gsClient event ;;
    ret (Some response)
  else if has_key event "Records" then
    log Debug (WillCheck (json_dumps E event)) ;;
    records <- item event "Records" ;;
    records' <- py_iter records ;;
    check_records region gsClient records' None
  else ret None.

(** [except botocore.exceptions.ClientError as e] *)
Definition on_client_error {A} (e : exn) : M A :=
  match e with
  | ClientError code msg =>
      raise (Exception ("EOJ or export call failed: " +:+ code
                        +:+ ", " +:+ msg))
  | _ => raise e
  end.

Definition lambda_handler (event : gmap string value)
  : M (gmap string value) :=
  response <- try_except (dispatch event) is_ClientError on_client_error ;;
  response <- try_except
                (match response with
                 | Some r => ret (Some r)
                 | None => raise (UnboundLocalError "response")
                 end)
                is_NameError (fun _ => ret None) ;;
  response <- match response with
              | Some r =>
                  arn <- item r "Arn" ;;
                  log Info (FinalArn (py_str E arn)) ;;
                  ret r
              | None => ret (<[ "Arn" := VStr "" ]> ∅)
              end ;;
  arn <- item response "Arn" ;;
  ret {[ "statusCode" := VInt 200; "eoj_arn" := arn ]}.

End Handler.

End EojLambda.

(** ** Vocabulary of the statements *)

Module Vocabulary.

(** The value passed for keyword [key] in a request. *)
Fixpoint kwarg (key : string) (kwargs : list (string * value))
  : option value :=
  match kwargs with
  | [] => None
  | (k, v) :: rest => if k =? key then Some v else kwarg key rest
  end.



(** Number of requests to method [m] recorded in a trace. *)
Fixpoint requests_of (m : string) (t : trace) : nat :=
  match t with
  | [] => O
  | Request c _ :: t' =>
      if call_method c =? m then S (requests_of m t') else requests_of m t'
  | _ :: t' => requests_of m t'
  end.

(** The calls of method [m] are answered in turn by [resp 0], [resp 1],
    ...: a sequence of values returned by a status-check API. *)
Definition answered_in_turn (E : env) (m : string)
           (resp : nat -> gmap string value) : Prop :=
  forall t c, call_method c = m ->
              service E t c = ApiOk (resp (requests_of m t)).

(** The response carries string [s] under [key]. *)
Definition says (r : gmap string value) (key s : string) : Prop :=
  r !! key = Some (VStr s).

(** The response carries a value under [key] that is not the string [s]. *)
Definition says_other (r : gmap string value) (key s : string) : Prop :=
  exists v, r !! key = Some v /\ eq_str v s = false.

(** *** The export-monitoring loop *)









(** *** The endpoint wait *)

(** From the spec's words: a creating/updating endpoint status. *)
Definition creating_or_updating (s : string) : bool :=
  (s =? "Creating") || (s =? "Updating").

(** The endpoint status in the response is ["InService"] or ["Failed"]. *)
Definition settled (r : gmap string value) : Prop :=
  exists v, r !! "EndpointStatus" = Some v
            /\ ShadowVariant.in_service_or_failed v = true.

(** The endpoint status in the response is neither. *)
Definition unsettled (r : gmap string value) : Prop :=
  exists v, r !! "EndpointStatus" = Some v
            /\ ShadowVariant.in_service_or_failed v = false.

(** *** The dispatcher *)







(** Whatever the history, code [c] adds only effects that satisfy [P]. *)
Definition emits {A} (P : effect -> Prop) (c : M A) : Prop :=
  forall t, exists t', snd (c t) = t ++ t' /\ Forall P t'.


(** A record of the queue whose body decodes to a callback token and the
    ARN of a job. *)
Definition callback_record (E : env) (record token eoj_arn : value) : Prop :=
  exists (d p a : gmap string value) (s : string),
    record = VDict d
    /\ d !! "body" = Some (VStr s)
    /\ json_loads E s = inr (VDict p)
    /\ p !! "token" = Some token
    /\ p !! "arguments" = Some (VDict a)
    /\ a !! "eoj_arn" = Some eoj_arn.

(** A request to the orchestration service. *)
Definition to_sagemaker (e : effect) : bool :=
  match e with
  | Request c _ => service_name (call_client c) =? "sagemaker"
  | _ => false
  end.


End Vocabulary.

(** ** Sample worlds *)

Module Samples.

Import Vocabulary.

(** A service whose answer depends on the method called and on how many
    times it was called before. *)
Definition scripted (answer : string -> nat -> api_result)
  : trace -> call -> api_result :=
  fun t c => answer (call_method c) (requests_of (call_method c) t).

(** A world with a scripted service and parsers that accept nothing. *)
Definition world (answer : string -> nat -> api_result) : env :=
  Env (scripted answer)
      (fun _ => "{...}")
      (fun _ => inl (ValueError "Expecting value"))
      (fun _ => inl (ValueError "malformed node or string"))
      (fun _ => "<repr>").

Definition job_arn : string :=
  "arn:aws:sagemaker-geospatial:us-west-2:111122223333:earth-observation-job/abc".

(** A job that is in progress for the first [n] polls and then has
    status [final]. *)
Definition job_status (n : nat) (final : string) (k : nat)
  : gmap string value :=
  {[ "Arn" := VStr job_arn;
     "Status" := VStr (if (k <? n)%nat then "IN_PROGRESS" else final) ]}.

Definition job_service (n : nat) (final : string) (m : string) (k : nat)
  : api_result :=
  if m =? "get_earth_observation_job" then ApiOk (job_status n final k)
  else ApiOk {[ "Arn" := VStr job_arn ]}.

(** An endpoint that reports [pending] for the first [n] polls and then
    [final]. *)
Definition endpoint_status (n : nat) (pending final : string) (k : nat)
  : gmap string value :=
  {[ "EndpointName" := VStr "xgb-prod-shadow";
     "EndpointStatus" := VStr (if (k <? n)%nat then pending else final) ]}.

Definition endpoint_service (n : nat) (pending final : string)
           (m : string) (k : nat) : api_result :=
  if m =? "describe_endpoint" then ApiOk (endpoint_status n pending final k)
  else ApiOk ∅.

(** A job whose export has succeeded, and the bucket that holds two of
    its images and one other object. *)
Definition exported_job (m : string) (k : nat) : api_result :=
  ApiOk {[ "Arn" := VStr job_arn;
           "Status" := VStr "COMPLETED";
           "ExportStatus" := VStr "SUCCEEDED" ]}.

Definition bucket_objects (prefix : string) : list string :=
  [prefix +:+ "2022-03-01_nir_mean.tif";
   prefix +:+ "manifest.json";
   prefix +:+ "2022-03-15_nir_mean.tif"].

(** One band, one row: reflectances below, at and above the scale. *)
Definition raster (tif : string) : Geospatial.array Z :=
  [[[0; 4200; 10000; 10001; 65535]%Z]].

(** The text of a queue message from the callback step:
    [{"token": "tok-1", "arguments": {"eoj_arn": "<job_arn>"}}]. *)
Definition dq : string := String (Ascii.ascii_of_nat 34) EmptyString.

Definition callback_body : string :=
  "{" +:+ dq +:+ "token" +:+ dq +:+ ": " +:+ dq +:+ "tok-1" +:+ dq +:+ ", "
  +:+ dq +:+ "arguments" +:+ dq +:+ ": {" +:+ dq +:+ "eoj_arn" +:+ dq +:+ ": "
  +:+ dq +:+ job_arn +:+ dq +:+ "}}".

Definition callback_payload : value :=
  VDict {[ "token" := VStr "tok-1";
           "arguments" := VDict {[ "eoj_arn" := VStr job_arn ]} ]}.

Definition callback_record : value :=
  VDict {[ "messageId" := VStr "m-1"; "body" := VStr callback_body ]}.

(** The event the queue hands to the function for one message. *)
Definition callback_event : gmap string value :=
  {[ "Records" := VList [callback_record] ]}.

(** The job as the geospatial service describes it. *)
Definition described (status : string) : gmap string value :=
  {[ "Arn" := VStr job_arn;
     "Status" := VStr status;
     "ErrorDetails" := VDict {[ "Message" := VStr "internal error";
                                "Type" := VStr "SERVER_ERROR" ]} ]}.

Definition callback_service (status : string) (m : string) (k : nat)
  : api_result :=
  if m =? "get_earth_observation_job" then ApiOk (described status)
  else ApiOk ∅.

(** A world where the job has the given status and the message body
    decodes as above. *)
Definition callback_world (status : string) : env :=
  Env (scripted (callback_service status))
      (fun _ => "{...}")
      (fun s => if s =? callback_body then inr callback_payload
                else inl (ValueError "Expecting value"))
      (fun _ => inl (ValueError "malformed node or string"))
      (fun _ => "<repr>").





End Samples.

(** ** Further vocabulary *)

Module Terms.

Import Vocabulary.

(** The region the handler works in: the event's, or the default. *)
Definition region_of (event : gmap string value) : value :=
  default (VStr "us-west-2") (event !! "region").

(** A request goes to a client of the given region. *)
Definition in_region (region : value) (e : effect) : Prop :=
  match e with
  | Request c _ => region_name (call_client c) = region
  | _ => True
  end.

(** No request recorded in the trace was refused by its service. *)
Definition no_refusal (t : trace) : Prop :=
  forall c code msg, ~ In (Request c (ApiError code msg)) t.

(** The trace ends with a refused request, the first one refused, and [e]
    is the error of that refusal. *)
Definition stopped_at_refusal (e : exn) (t : trace) : Prop :=
  exists t0 c code msg,
    t = t0 ++ [Request c (ApiError code msg)]
    /\ no_refusal t0
    /\ e = ClientError code msg.

(** Code [c] keeps [I] on the trace as long as it goes on, and when it
    breaks [I] it does so by raising an exception [e] with [S e] on the
    trace. *)
Definition guarded {A} (I : trace -> Prop) (S : exn -> trace -> Prop)
           (c : M A) : Prop :=
  forall t res t',
    I t -> c t = (res, t') ->
    I t' \/ (exists e, res = Raised e /\ S e t').

(** The calls of method [m] are answered in turn by [ans 0], [ans 1], ...,
    refusals included. *)
Definition replies_in_turn (E : env) (m : string) (ans : nat -> api_result)
  : Prop :=
  forall t c, call_method c = m -> service E t c = ans (requests_of m t).





(** The keys of the listed objects that [visualize_cogt] takes for images
    of the band. *)
Definition images_of (band : string) (keys : list string) : list string :=
  List.filter (fun key => contains (band +:+ ".tif") key) keys.

(** The trace is a run of pauses of [pause] seconds, each followed by one
    request of method [m]. *)
Fixpoint paced (pause : Z) (m : string) (t : trace) : bool :=
  match t with
  | [] => true
  | Sleep n :: t' =>
      match t' with
      | Request c _ :: t'' =>
          (n =? pause)%Z && (call_method c =? m) && paced pause m t''
      | _ => false
      end
  | _ => false
  end.

(** The answer describes a job that is complete and carries no export
    status yet. *)
Definition ready (a : api_result) : bool :=
  match a with
  | ApiOk r =>
      match r !! "Status" with
      | Some st => eq_str st "COMPLETED" && negb (has_key r "ExportStatus")
      | None => false
      end
  | ApiError _ _ => false
  end.

(** Number of status polls in the trace that found a job [ready]. *)
Fixpoint ready_polls (t : trace) : nat :=
  match t with
  | [] => O
  | Request c a :: t' =>
      if (call_method c =? "get_earth_observation_job") && ready a
      then S (ready_polls t') else ready_polls t'
  | _ :: t' => ready_polls t'
  end.

(** From trace [t] to trace [t'] the export requests and the polls that
    found a job [ready] have grown by the same number. *)
Definition balanced (t t' : trace) : Prop :=
  exists k,
    requests_of "export_earth_observation_job" t'
    = (requests_of "export_earth_observation_job" t + k)%nat
    /\ ready_polls t' = (ready_polls t + k)%nat.

(** The code of [lambda_handler] after the first [try]: the second [try],
    the closing log line and the value returned. *)
Definition finish (E : env) (response : option (gmap string value))
  : M (gmap string value) :=
  response <- try_except
                (match response with
                 | Some r => ret (Some r)
                 | None => raise (UnboundLocalError "response")
                 end)
                is_NameError (fun _ => ret None) ;;
  response <- match response with
              | Some r =>
                  arn <- item r "Arn" ;;
                  log Info (FinalArn (py_str E arn)) ;;
                  ret r
              | None => ret (<[ "Arn" := VStr "" ]> ∅)
              end ;;
  arn <- item response "Arn" ;;
  ret {[ "statusCode" := VInt 200; "eoj_arn" := arn ]}.

End Terms.

(** ** The shadow-variant notebook: traffic and metrics *)

Module ShadowTraffic.

Section Notebook.

Variable E : env.
(** The region of the notebook's session. *)
Variable region : value.

(** [sm_runtime = boto3.Session().client("sagemaker-runtime")] and
    [cw = boto3.Session().client("cloudwatch", region_name=region)].
    [invoke_endpoint] and [get_metric_statistics] are operations of these
    two services, so the attribute look-ups on the clients succeed. *)
Definition sm_runtime : client := Client "sagemaker-runtime" region.
Definition cw : client := Client "cloudwatch" region.

(** [s.rstrip("\n")]: the string without its trailing line feeds. *)
Fixpoint rstrip_newline (s : string) : string :=
  match s with
  | EmptyString => EmptyString
  | String c s' =>
      match rstrip_newline s' with
      | EmptyString =>
          if Ascii.eqb c (Ascii.ascii_of_nat 10) then EmptyString
          else String c EmptyString
      | rest => String c rest
      end
  end.

(** The request that carries one row to the endpoint. *)
Definition row_request (endpoint_name payload : string) : call :=
  Call sm_runtime "invoke_endpoint"
       [("EndpointName", VStr endpoint_name);
        ("ContentType", VStr "text/csv");
        ("Body", VStr payload)].

(** [for i in range(n): response = sm_runtime.invoke_endpoint(...)] *)
Fixpoint send_times (n : nat) (endpoint_name payload : string) : M unit :=
  match n with
  | O => ret tt
  | S n' =>
      invoke E sm_runtime "invoke_endpoint"
             [("EndpointName", VStr endpoint_name);
              ("ContentType", VStr "text/csv");
              ("Body", VStr payload)] ;;
      send_times n' endpoint_name payload
  end.

(** [for row in f], on the rows read from the file; [except Exception]
    handles every exception of the model. *)
Fixpoint invoke_endpoint_rows (endpoint_name : string)
         (should_raise_exp : bool) (rows : list string) : M unit :=
  match rows with
  | [] => ret tt
  | row :: rest =>
      let payload := rstrip_newline row in
      try_except (send_times 10 endpoint_name payload)
                 (fun _ => true)
                 (fun e => if should_raise_exp then raise e else ret tt) ;;
      invoke_endpoint_rows endpoint_name should_raise_exp rest
  end.

(** [invoke_endpoint(endpoint_name, should_raise_exp)]; [rows] are the
    lines of [test_data/test-dataset-input-cols.csv]. *)
Definition invoke_endpoint (rows : list string) (endpoint_name : string)
           (should_raise_exp : bool) : M unit :=
  invoke_endpoint_rows endpoint_name should_raise_exp rows.

(** [len(v)] *)
Definition py_len (v : value) : M nat :=
  match v with
  | VList l => ret (length l)
  | VStr s => ret (String.length s)
  | VDict d => ret (size d)
  | _ => raise (TypeError "object has no len()")
  end.

Section Frames.

(** Data frames and plots are values of the plotting libraries.
    [frame datapoints statistic variant_name] stands for the chain
    [pd.DataFrame(datapoints).sort_values("Timestamp")
       .set_index("Timestamp").drop(["Unit"], axis=1)
       .rename(columns={statistic: variant_name})],
    and [merge_plot production shadow] for
    [pd.merge(production, shadow, on="Timestamp")
       .plot(y=["production", "shadow"])];
    either may raise. *)
Variables F P : Type.
Variable frame : value -> string -> string -> exn + F.
Variable merge_plot : F -> F -> exn + P.

Definition get_sagemaker_metrics
           (endpoint_name variant_name metric_name statistic : string)
           (start_time end_time : value) : M (option F) :=
  let dimensions :=
    VList [VDict {[ "Name" := VStr "EndpointName";
                    "Value" := VStr endpoint_name ]};
           VDict {[ "Name" := VStr "VariantName";
                    "Value" := VStr variant_name ]}] in
  let namespace :=
    if existsb (String.eqb metric_name)
               ["CPUUtilization"; "MemoryUtilization"; "DiskUtilization"]
    then "/aws/sagemaker/Endpoints" else "AWS/SageMaker" in
  metrics <- invoke E cw "get_metric_statistics"
                    [("Namespace", VStr namespace);
                     ("MetricName", VStr metric_name);
                     ("StartTime", start_time);
                     ("EndTime", end_time);
                     ("Period", VInt 1);
                     ("Statistics", VList [VStr statistic]);
                     ("Dimensions", dimensions)] ;;
  datapoints <- item metrics "Datapoints" ;;
  n <- py_len datapoints ;;
  if (n =? 0)%nat then ret None
  else
    datapoints <- item metrics "Datapoints" ;;
    f <- lift (frame datapoints statistic variant_name) ;;
    ret (Some f).

(** [start_time] is the argument ([None] when left out), [ten_minutes_ago]
    and [now] the two readings of the clock. *)
Definition plot_endpoint_invocation_metrics
           (endpoint_name metric_name statistic : string)
           (start_time : option value) (ten_minutes_ago now : value)
  : M (option P) :=
  let start_time := match start_time with
                    | Some s => s
                    | None => ten_minutes_ago
                    end in
  let end_time := now in
  metrics_production <-
    get_sagemaker_metrics endpoint_name ShadowVariant.production_variant_name
                          metric_name statistic start_time end_time ;;
  metrics_shadow <-
    get_sagemaker_metrics endpoint_name ShadowVariant.shadow_variant_name
                          metric_name statistic start_time end_time ;;
  try_except
    (match metrics_production, metrics_shadow with
     | Some production, Some shadow =>
         p <- lift (merge_plot production shadow) ;;
         ret (Some p)
     | _, _ =>
         raise (TypeError "Can only merge Series or DataFrame objects")
     end)
    (fun _ => true)
    (fun _ => ret None).

End Frames.

End Notebook.

End ShadowTraffic.

Module TrafficTerms.

(** The requests recorded in a trace, in order. *)
Fixpoint calls_of (t : trace) : list call :=
  match t with
  | [] => []
  | Request c _ :: t' => c :: calls_of t'
  | _ :: t' => calls_of t'
  end.

(** Row by row, [k] requests for the row, [k] taken from [ks]. *)
Fixpoint row_requests (region : value) (endpoint_name : string)
         (ks : list nat) (rows : list string) : list call :=
  match ks, rows with
  | k :: ks', row :: rows' =>
      replicate k (ShadowTraffic.row_request
                     region endpoint_name
                     (ShadowTraffic.rstrip_newline row))
      ++ row_requests region endpoint_name ks' rows'
  | _, _ => []
  end.

(** A string of [k] line feeds. *)
Fixpoint line_feeds (k : nat) : string :=
  match k with
  | O => EmptyString
  | S k' => String (Ascii.ascii_of_nat 10) (line_feeds k')
  end.

(** The last character of the string is a line feed. *)
Fixpoint ends_with_line_feed (s : string) : bool :=
  match s with
  | EmptyString => false
  | String c EmptyString => Ascii.eqb c (Ascii.ascii_of_nat 10)
  | String _ s' => ends_with_line_feed s'
  end.

(** Every call of method [m] is accepted. *)
Definition accepted (E : env) (m : string) : Prop :=
  forall t c, call_method c = m -> exists r, service E t c = ApiOk r.

End TrafficTerms.

(** ** Sample worlds of the pipeline and of the shadow test *)

Module PipelineSamples.

Import Vocabulary.

Definition collection_arn : string :=
  "arn:aws:sagemaker-geospatial:us-west-2:378778860802:raster-data-collection/public/nmqj48dcu3g7ayw8".

(** The pipeline parameters, as the strings the steps receive, and the
    values they are literals of. *)
Definition query_text : string :=
  "{'RasterDataCollectionQuery': {'RasterDataCollectionArn': '"
  +:+ collection_arn +:+ "'}}".

Definition query : value :=
  VDict {[ "RasterDataCollectionQuery" :=
             VDict {[ "RasterDataCollectionArn" := VStr collection_arn ]} ]}.

Definition cloud_removal_text : string :=
  "{'CloudRemovalConfig': {'AlgorithmName': 'INTERPOLATION', 'InterpolationValue': '-9999'}}".

Definition cloud_removal : value :=
  VDict {[ "CloudRemovalConfig" :=
             VDict {[ "AlgorithmName" := VStr "INTERPOLATION";
                      "InterpolationValue" := VStr "-9999" ]} ]}.

Definition stack_text : string :=
  "{'StackConfig': {'OutputResolution': {'Predefined': 'HIGHEST'}, 'TargetBands': ['red', 'green', 'blue']}}".

Definition stack : value :=
  VDict {[ "StackConfig" :=
             VDict {[ "OutputResolution" :=
                        VDict {[ "Predefined" := VStr "HIGHEST" ]};
                      "TargetBands" :=
                        VList [VStr "red"; VStr "green"; VStr "blue"] ]} ]}.

Definition output_text : string :=
  "{'S3Data': {'S3Uri': 's3://my-bucket/sm-geospatial-e2e/export/', 'KmsKeyId': ''}}".

Definition output : value :=
  VDict {[ "S3Data" :=
             VDict {[ "S3Uri" :=
                        VStr "s3://my-bucket/sm-geospatial-e2e/export/";
                      "KmsKeyId" := VStr EmptyString ]} ]}.

Definition literals (s : string) : exn + value :=
  if s =? query_text then inr query
  else if s =? cloud_removal_text then inr cloud_removal
  else if s =? stack_text then inr stack
  else if s =? output_text then inr output
  else inl (ValueError "malformed node or string").

(** Three jobs of the pipeline. *)
Definition job (name : string) : string :=
  "arn:aws:sagemaker-geospatial:us-west-2:111122223333:earth-observation-job/"
  +:+ name.

(** The queue message of a callback step for a job, and what it decodes
    to. *)
Definition message (token arn : string) : string :=
  "{" +:+ Samples.dq +:+ "token" +:+ Samples.dq +:+ ": "
  +:+ Samples.dq +:+ token +:+ Samples.dq +:+ ", "
  +:+ Samples.dq +:+ "arguments" +:+ Samples.dq +:+ ": {"
  +:+ Samples.dq +:+ "eoj_arn" +:+ Samples.dq +:+ ": "
  +:+ Samples.dq +:+ arn +:+ Samples.dq +:+ "}}".

Definition payload (token arn : string) : value :=
  VDict {[ "token" := VStr token;
           "arguments" := VDict {[ "eoj_arn" := VStr arn ]} ]}.

Definition record (token arn : string) : value :=
  VDict {[ "messageId" := VStr ("m-" +:+ token);
           "body" := VStr (message token arn) ]}.

Definition messages (s : string) : exn + value :=
  if s =? message "tok-1" (job "cloudremoval") then
    inr (payload "tok-1" (job "cloudremoval"))
  else if s =? message "tok-2" (job "stacking") then
    inr (payload "tok-2" (job "stacking"))
  else if s =? message "tok-3" (job "export") then
    inr (payload "tok-3" (job "export"))
  else inl (ValueError "Expecting value").

(** The cloud-removal job and the export are complete, the stacking job
    is in progress. *)
Definition describe (c : call) : gmap string value :=
  match kwarg "Arn" (call_kwargs c) with
  | Some arn =>
      {[ "Arn" := arn;
         "Status" := VStr (if eq_str arn (job "stacking")
                           then "IN_PROGRESS" else "COMPLETED") ]}
  | None => ∅
  end.


(** A service that refuses every request. *)
Definition throttling (t : trace) (c : call) : api_result :=
  ApiError "ThrottlingException" "Rate exceeded".

Definition pipeline_world (service : trace -> call -> api_result) : env :=
  Env service (fun _ => "{...}") messages literals (fun _ => "<repr>").

(** The events of the three function steps. *)
Definition cloud_removal_event : gmap string value :=
  {[ "role" := VStr "geospatial-execution-role";
     "region" := VStr "us-west-2";
     "eoj_input_config" := VStr query_text;
     "eoj_config" := VStr cloud_removal_text;
     "eoj_name" := VStr "cloudremoval-2023-01-01-00-00" ]}.




(** A job, or an endpoint, in the given state for the first [n] polls and
    refused at the next. *)
Definition refused_after (n : nat) (key pending : string) (k : nat)
  : api_result :=
  if (k <? n)%nat then ApiOk {[ key := VStr pending ]}
  else ApiError "ThrottlingException" "Rate exceeded".

Definition refusing (m : string) (n : nat) (key pending : string)
           (m' : string) (k : nat) : api_result :=
  if m' =? m then refused_after n key pending k
  else ApiOk {[ "Arn" := VStr (job "new") ]}.

End PipelineSamples.

Module TrafficSamples.

(** Two rows of the test file. *)
Definition rows : list string :=
  ["0.5,12,1" +:+ nl; "0.1,7,0" +:+ nl].

(** An endpoint that accepts every request. *)
Definition endpoint : env :=
  Samples.world (fun _ _ => ApiOk ∅).

(** CloudWatch with one data point a query. *)
Definition cloudwatch : env :=
  Samples.world (fun _ k =>
                   ApiOk {[ "Label" := VStr "Invocations";
                            "Datapoints" :=
                              VList [VDict {[ "Timestamp" :=
                                                VStr "2023-01-01T00:00:00Z";
                                              "Sum" := VInt (Z.of_nat k);
                                              "Unit" := VStr "None" ]}] ]}).

(** Stand-ins for the frames and the plot: a frame is its data points
    under the column name, a plot the pair of the frames. *)
Definition frame (datapoints : value) (statistic variant : string)
  : exn + (string * value) :=
  inr (variant, datapoints).

Definition merge_plot (production shadow : string * value)
  : exn + ((string * value) * (string * value)) :=
  inr (production, shadow).

End TrafficSamples.

(* ===================================================================== *)
(** * Part II: properties                                                  *)
(* ===================================================================== *)

Import Vocabulary.

(** ** Running monadic code *)

Lemma bind_done {A B} (c : M A) (k : A -> M B) t a t' :
  c t = (Done a, t') -> bind c k t = k a t'.
Proof. intros H. unfold bind. now rewrite H. Qed.

Lemma bind_raised {A B} (c : M A) (k : A -> M B) t e t' :
  c t = (Raised e, t') -> bind c k t = (Raised e, t').
Proof. intros H. unfold bind. now rewrite H. Qed.

Lemma bind_out_of_fuel {A B} (c : M A) (k : A -> M B) t t' :
  c t = (OutOfFuel, t') -> bind c k t = (OutOfFuel, t').
Proof. intros H. unfold bind. now rewrite H. Qed.

Lemma invoke_ok E c m kw t r :
  service E t (Call c m kw) = ApiOk r ->
  invoke E c m kw t = (Done r, t ++ [Request (Call c m kw) (ApiOk r)]).
Proof. intros H. unfold invoke. cbv zeta. now rewrite H. Qed.

Lemma invoke_error E c m kw t code msg :
  service E t (Call c m kw) = ApiError code msg ->
  invoke E c m kw t
  = (Raised (ClientError code msg),
     t ++ [Request (Call c m kw) (ApiError code msg)]).
Proof. intros H. unfold invoke. cbv zeta. now rewrite H. Qed.

Lemma item_some d key v t :
  d !! key = Some v -> item d key t = (Done v, t).
Proof. intros H. unfold item, py_getitem. now rewrite H. Qed.

Lemma item_none d key t :
  d !! key = None -> item d key t = (Raised (KeyError key), t).
Proof. intros H. unfold item, py_getitem. now rewrite H. Qed.

Lemma has_key_true d key :
  has_key d key = true <-> is_Some (d !! key).
Proof. unfold has_key. apply bool_decide_eq_true. Qed.

Lemma has_key_false d key :
  has_key d key = false <-> d !! key = None.
Proof.
  unfold has_key. rewrite bool_decide_eq_false, <- eq_None_not_Some.
  reflexivity.
Qed.


Lemma requests_of_app m t t' :
  requests_of m (t ++ t') = (requests_of m t + requests_of m t')%nat.
Proof.
  induction t as [|e t IH]; simpl; [reflexivity|].
  destruct e as [c a| |]; try exact IH.
  destruct (call_method c =? m); simpl; now rewrite IH.
Qed.

(** Equations for running a sequence step by step. *)

Lemma bind_bind {A B C} (c : M A) (k1 : A -> M B) (k2 : B -> M C) t :
  bind (bind c k1) k2 t = bind c (fun a => bind (k1 a) k2) t.
Proof. unfold bind. now destruct (c t) as [[a|e|] u]. Qed.

Lemma bind_ret {A B} (a : A) (k : A -> M B) t : bind (ret a) k t = k a t.
Proof. reflexivity. Qed.

Lemma bind_raise {A B} e (k : A -> M B) t :
  bind (raise e) k t = (Raised e, t).
Proof. reflexivity. Qed.

Lemma bind_log {B} l m (k : unit -> M B) t :
  bind (log l m) k t = k tt (t ++ [Log l m]).
Proof. reflexivity. Qed.

Lemma bind_sleep {B} n (k : unit -> M B) t :
  bind (sleep n) k t = k tt (t ++ [Sleep n]).
Proof. reflexivity. Qed.

Lemma bind_item {B} d key v (k : value -> M B) t :
  d !! key = Some v -> bind (item d key) k t = k v t.
Proof. intros H. apply bind_done. now apply item_some. Qed.

Lemma bind_item_missing {B} d key (k : value -> M B) t :
  d !! key = None -> bind (item d key) k t = (Raised (KeyError key), t).
Proof. intros H. apply bind_raised. now apply item_none. Qed.

Lemma bind_getattr {B} c m (k : unit -> M B) t :
  has_method c m = true -> bind (getattr c m) k t = k tt t.
Proof. intros H. unfold bind, getattr. now rewrite H. Qed.

Lemma bind_getattr_missing {B} c m (k : unit -> M B) t :
  has_method c m = false ->
  bind (getattr c m) k t = (Raised (AttributeError m), t).
Proof. intros H. unfold bind, getattr. now rewrite H. Qed.

Lemma bind_invoke {B} E c m kw (k : gmap string value -> M B) t :
  bind (invoke E c m kw) k t
  = match service E t (Call c m kw) with
    | ApiOk r => k r (t ++ [Request (Call c m kw) (ApiOk r)])
    | ApiError code msg =>
        (Raised (ClientError code msg),
         t ++ [Request (Call c m kw) (ApiError code msg)])
    end.
Proof.
  unfold bind, invoke. cbv zeta. now destruct (service E t (Call c m kw)).
Qed.

(** Runs the leading steps of a sequence whose outcome is known: plain
    effects, attribute lookups on a known client, and dictionary reads
    settled by a hypothesis. *)
Ltac run :=
  unfold says in *;
  repeat (cbv beta iota zeta;
          first [ rewrite bind_bind
                | rewrite bind_ret
                | rewrite bind_raise
                | rewrite bind_log
                | rewrite bind_sleep
                | rewrite bind_getattr by reflexivity
                | rewrite bind_getattr_missing by reflexivity
                | erewrite bind_item by eassumption
                | rewrite bind_item_missing by eassumption ]).

(** ** [export_earth_observation_job] *)

Section ExportRequest.

Variable E : env.
Variable region : value.

Import Geospatial.

(** The run of [export_earth_observation_job]: one request, and an error
    when the service refuses it or answers without an ARN. *)
Lemma export_run eoj_arn role bucket prefix task_suffix t :
  exists rq,
    call_method rq = "export_earth_observation_job"
    /\ export_earth_observation_job E region eoj_arn role bucket prefix
                                    task_suffix t
       = (match service E t rq with
          | ApiOk r => match r !! "Arn" with
                       | Some _ => Done tt
                       | None => Raised (KeyError "Arn")
                       end
          | ApiError code msg => Raised (ClientError code msg)
          end,
          t ++ [Request rq (service E t rq)]).
Proof.
  unfold export_earth_observation_job.
  match goal with
  | |- context [invoke E ?c ?m ?kw] => exists (Call c m kw)
  end.
  split; [reflexivity|].
  rewrite bind_getattr by reflexivity. rewrite bind_invoke.
  destruct (service E t _) as [r|code msg]; [|reflexivity].
  unfold bind, item, py_getitem. destruct (r !! "Arn"); reflexivity.
Qed.

(** C7: for every ARN, role, bucket, prefix and task suffix,
    [export_earth_observation_job] sends exactly one request, to the export
    method of the geospatial client, and that request carries the given ARN
    under [Arn], the given role under [ExecutionRoleArn], and under
    [OutputConfig] the S3 URI [s3://{bucket}/{prefix}/{task_suffix}/] with
    an empty [KmsKeyId]. *)
Theorem export_passes_arguments_through
        (eoj_arn : value) (role bucket prefix task_suffix : string) (t : trace) :
  exists a,
    snd (export_earth_observation_job E region eoj_arn role bucket prefix
                                      task_suffix t)
    = t ++ [Request
              (Call (Client "sagemaker-geospatial" region)
                    "export_earth_observation_job"
                    [("Arn", eoj_arn);
                     ("ExecutionRoleArn", VStr role);
                     ("OutputConfig",
                      VDict {[ "S3Data" :=
                        VDict {[ "S3Uri" :=
                                   VStr ("s3://" +:+ bucket +:+ "/" +:+ prefix
                                         +:+ "/" +:+ task_suffix +:+ "/");
                                 "KmsKeyId" := VStr "" ]} ]})])
              a].
Proof.
  match goal with
  | |- exists a, _ = _ ++ [Request ?rq a] => exists (service E t rq)
  end.
  unfold export_earth_observation_job.
  unfold bind at 1. change (getattr _ _ t) with (Done tt, t).
  cbv iota beta. unfold bind at 1. unfold invoke, gsClient. cbv zeta.
  destruct (service E t _) as [r|code msg]; [|reflexivity].
  unfold bind, item, py_getitem. destruct (r !! "Arn"); reflexivity.
Qed.

End ExportRequest.

(** ** [start_earth_observation_job] *)

Section StartJob.

Variable E : env.
Variable region : value.

Import Geospatial.

Local Abbreviation get := "get_earth_observation_job".

(** One turn of the loop on an in-progress response: pause, poll, go on
    with the answer. *)
Lemma wait_poll fuel arn r t r' :
  says r "Status" "IN_PROGRESS" ->
  service E (t ++ [Sleep 60]) (Call (gsClient region) get [("Arn", arn)])
  = ApiOk r' ->
  wait_while_in_progress E region (S fuel) arn r t
  = wait_while_in_progress E region fuel arn r'
      (t ++ [Sleep 60]
         ++ [Request (Call (gsClient region) get [("Arn", arn)]) (ApiOk r')]).
Proof.
  intros Hr Hs. cbn [wait_while_in_progress].
  rewrite (bind_done _ _ _ _ _ (item_some _ _ _ t Hr)).
  cbn [eq_str]. rewrite String.eqb_refl.
  unfold sleep, emit. unfold bind at 1. unfold bind at 1.
  change (getattr _ _ ?x) with (Done tt, x). cbv iota beta.
  rewrite (bind_done _ _ _ _ _ (invoke_ok _ _ _ _ _ _ Hs)).
  now rewrite <- app_assoc.
Qed.

(** The loop stops on the first response that is not in progress. *)
Lemma wait_stops fuel arn r t :
  says_other r "Status" "IN_PROGRESS" ->
  wait_while_in_progress E region fuel arn r t = (Done tt, t).
Proof.
  intros (v & Hv & Hne).
  destruct fuel; cbn [wait_while_in_progress];
    rewrite (bind_done _ _ _ _ _ (item_some _ _ _ t Hv)), Hne; reflexivity.
Qed.

(** While every answer is in progress the loop is still polling when the
    budget ends, after exactly [fuel] polls. *)
Lemma wait_still_polling resp arn :
  answered_in_turn E get resp ->
  forall fuel r t,
    says r "Status" "IN_PROGRESS" ->
    (forall i, (i < fuel)%nat ->
               says (resp (requests_of get t + i)%nat) "Status" "IN_PROGRESS") ->
    exists t',
      wait_while_in_progress E region fuel arn r t = (OutOfFuel, t')
      /\ requests_of get t' = (requests_of get t + fuel)%nat.
Proof.
  intros Hturn fuel. induction fuel as [|fuel IH]; intros r t Hr Hall.
  - exists t. split; [|lia]. cbn [wait_while_in_progress].
    rewrite (bind_done _ _ _ _ _ (item_some _ _ _ t Hr)).
    cbn [eq_str]. now rewrite String.eqb_refl.
  - pose proof (Hturn (t ++ [Sleep 60])
                      (Call (gsClient region) get [("Arn", arn)]) eq_refl) as Hs.
    rewrite requests_of_app, Nat.add_0_r in Hs.
    rewrite (wait_poll _ _ _ _ _ Hr Hs).
    destruct (IH (resp (requests_of get t))
                 (t ++ [Sleep 60]
                    ++ [Request (Call (gsClient region) get [("Arn", arn)])
                                (ApiOk (resp (requests_of get t)))]))
      as (t' & Hrun & Hcount).
    + specialize (Hall O ltac:(lia)). now rewrite Nat.add_0_r in Hall.
    + intros i Hi. rewrite requests_of_app. cbn.
      replace (requests_of get t + 1 + i)%nat
        with (requests_of get t + S i)%nat by lia.
      apply Hall. lia.
    + exists t'. split; [exact Hrun|].
      rewrite Hcount, requests_of_app. cbn. lia.
Qed.

(** After [n] answers in progress and one that is not, the loop returns
    after exactly [n + 1] polls, whatever budget is left. *)
Lemma wait_returns resp arn :
  answered_in_turn E get resp ->
  forall n fuel r t,
    says r "Status" "IN_PROGRESS" ->
    (forall i, (i < n)%nat ->
               says (resp (requests_of get t + i)%nat) "Status" "IN_PROGRESS") ->
    says_other (resp (requests_of get t + n)%nat) "Status" "IN_PROGRESS" ->
    (n < fuel)%nat ->
    exists t',
      wait_while_in_progress E region fuel arn r t = (Done tt, t')
      /\ requests_of get t' = (requests_of get t + S n)%nat.
Proof.
  intros Hturn n. induction n as [|n IH]; intros fuel r t Hr Hall Hlast Hfuel;
    (destruct fuel as [|fuel]; [lia|]);
    pose proof (Hturn (t ++ [Sleep 60])
                      (Call (gsClient region) get [("Arn", arn)]) eq_refl) as Hs;
    rewrite requests_of_app, Nat.add_0_r in Hs;
    rewrite (wait_poll _ _ _ _ _ Hr Hs).
  - rewrite Nat.add_0_r in Hlast. rewrite (wait_stops _ _ _ _ Hlast).
    eexists. split; [reflexivity|]. rewrite requests_of_app. cbn. lia.
  - destruct (IH fuel (resp (requests_of get t))
                 (t ++ [Sleep 60]
                    ++ [Request (Call (gsClient region) get [("Arn", arn)])
                                (ApiOk (resp (requests_of get t)))]))
      as (t' & Hrun & Hcount).
    + specialize (Hall O ltac:(lia)). now rewrite Nat.add_0_r in Hall.
    + intros i Hi. rewrite requests_of_app. cbn.
      replace (requests_of get t + 1 + i)%nat
        with (requests_of get t + S i)%nat by lia.
      apply Hall. lia.
    + rewrite requests_of_app. cbn.
      replace (requests_of get t + 1 + n)%nat
        with (requests_of get t + S n)%nat by lia.
      exact Hlast.
    + lia.
    + exists t'. split; [exact Hrun|].
      rewrite Hcount, requests_of_app. cbn. lia.
Qed.

(** The code before the loop: the job is started and its ARN read. *)
Lemma start_then_wait fuel eoj_name role ic jc started arn :
  service E [] (Call (gsClient region) "start_earth_observation_job"
                     [("Name", VStr eoj_name);
                      ("ExecutionRoleArn", VStr role);
                      ("InputConfig", ic);
                      ("JobConfig", jc)]) = ApiOk started ->
  started !! "Arn" = Some arn ->
  exists t0,
    requests_of get t0 = O
    /\ start_earth_observation_job E region fuel eoj_name role ic jc []
       = bind (wait_while_in_progress E region fuel arn
                 {[ "Status" := VStr "IN_PROGRESS" ]})
              (fun _ => ret arn) t0.
Proof.
  intros Hs Harn. eexists. split; cycle 1.
  - unfold start_earth_observation_job.
    unfold bind at 1. change (getattr _ _ []) with (Done tt, @nil effect).
    cbv iota beta.
    rewrite (bind_done _ _ _ _ _ (invoke_ok _ _ _ _ _ _ Hs)).
    rewrite (bind_done _ _ _ _ _ (item_some _ _ _ _ Harn)).
    reflexivity.
  - reflexivity.
Qed.

(** C3: for every sequence [resp] of answers of the status-check API:
    as long as every polled status is ["IN_PROGRESS"] the function has not
    returned (it is still polling after any number of polls), and once the
    status polled is anything else, ["COMPLETED"] and ["FAILED"] alike, it
    returns the ARN of the job it started, right after that poll. *)
Theorem start_job_returns_on_first_other_status
        (eoj_name role : string) (ic jc : value)
        (started : gmap string value) (arn : value)
        (resp : nat -> gmap string value) :
  service E [] (Call (gsClient region) "start_earth_observation_job"
                     [("Name", VStr eoj_name);
                      ("ExecutionRoleArn", VStr role);
                      ("InputConfig", ic);
                      ("JobConfig", jc)]) = ApiOk started ->
  started !! "Arn" = Some arn ->
  answered_in_turn E get resp ->
  (forall fuel,
      (forall i, (i < fuel)%nat -> says (resp i) "Status" "IN_PROGRESS") ->
      exists t,
        start_earth_observation_job E region fuel eoj_name role ic jc []
        = (OutOfFuel, t)
        /\ requests_of get t = fuel)
  /\ (forall n fuel,
         (forall i, (i < n)%nat -> says (resp i) "Status" "IN_PROGRESS") ->
         says_other (resp n) "Status" "IN_PROGRESS" ->
         (n < fuel)%nat ->
         exists t,
           start_earth_observation_job E region fuel eoj_name role ic jc []
           = (Done arn, t)
           /\ requests_of get t = S n).
Proof.
  intros Hs Harn Hturn. split.
  - intros fuel Hall.
    destruct (start_then_wait fuel _ _ _ _ _ _ Hs Harn) as (t0 & H0 & ->).
    destruct (wait_still_polling resp arn Hturn fuel
                {[ "Status" := VStr "IN_PROGRESS" ]} t0) as (t & Hrun & Hc).
    + reflexivity.
    + now rewrite H0.
    + exists t. rewrite (bind_out_of_fuel _ _ _ _ Hrun). split; [easy|lia].
  - intros n fuel Hall Hlast Hfuel.
    destruct (start_then_wait fuel _ _ _ _ _ _ Hs Harn) as (t0 & H0 & ->).
    destruct (wait_returns resp arn Hturn n fuel
                {[ "Status" := VStr "IN_PROGRESS" ]} t0) as (t & Hrun & Hc).
    + reflexivity.
    + now rewrite H0.
    + now rewrite H0.
    + exact Hfuel.
    + exists t. rewrite (bind_done _ _ _ _ _ Hrun). split; [easy|lia].
Qed.

End StartJob.

(** ** [wait_for_endpoint_in_service] *)

Section EndpointWait.

Variable E : env.
Variable region : value.

Import ShadowVariant.

Local Abbreviation describe := "describe_endpoint".

(** One turn of the loop on an answer that is neither ["InService"] nor
    ["Failed"]: the loop pauses and goes round again. *)
Lemma endpoint_poll_unsettled fuel name t r :
  service E t (Call (sm region) describe [("EndpointName", VStr name)])
  = ApiOk r ->
  unsettled r ->
  wait_for_endpoint_in_service E region (S fuel) name t
  = wait_for_endpoint_in_service E region fuel name
      (t ++ [Request (Call (sm region) describe [("EndpointName", VStr name)])
                     (ApiOk r)]
         ++ [Sleep 30]).
Proof.
  intros Hs (v & Hv & Hno). cbn [wait_for_endpoint_in_service].
  unfold bind at 1. change (getattr _ _ t) with (Done tt, t). cbv iota beta.
  rewrite (bind_done _ _ _ _ _ (invoke_ok _ _ _ _ _ _ Hs)).
  rewrite (bind_done _ _ _ _ _ (item_some _ _ _ _ Hv)), Hno.
  unfold sleep, emit, bind. now rewrite <- app_assoc.
Qed.

(** One turn on ["InService"] or ["Failed"]: the loop ends. *)
Lemma endpoint_poll_settled fuel name t r :
  service E t (Call (sm region) describe [("EndpointName", VStr name)])
  = ApiOk r ->
  settled r ->
  wait_for_endpoint_in_service E region (S fuel) name t
  = (Done tt,
     t ++ [Request (Call (sm region) describe [("EndpointName", VStr name)])
                   (ApiOk r)]).
Proof.
  intros Hs (v & Hv & Hyes). cbn [wait_for_endpoint_in_service].
  unfold bind at 1. change (getattr _ _ t) with (Done tt, t). cbv iota beta.
  rewrite (bind_done _ _ _ _ _ (invoke_ok _ _ _ _ _ _ Hs)).
  rewrite (bind_done _ _ _ _ _ (item_some _ _ _ _ Hv)), Hyes.
  reflexivity.
Qed.

(** While no answer is ["InService"] or ["Failed"], the loop is still
    polling when the budget ends. *)
Lemma endpoint_wait_still_polling resp name :
  answered_in_turn E describe resp ->
  forall fuel t,
    (forall i, (i < fuel)%nat ->
               unsettled (resp (requests_of describe t + i)%nat)) ->
    exists t',
      wait_for_endpoint_in_service E region fuel name t = (OutOfFuel, t')
      /\ requests_of describe t' = (requests_of describe t + fuel)%nat.
Proof.
  intros Hturn fuel. induction fuel as [|fuel IH]; intros t Hall.
  - exists t. split; [reflexivity|lia].
  - pose proof (Hturn t (Call (sm region) describe
                              [("EndpointName", VStr name)]) eq_refl) as Hs.
    assert (H0 : unsettled (resp (requests_of describe t))).
    { specialize (Hall O ltac:(lia)). now rewrite Nat.add_0_r in Hall. }
    rewrite (endpoint_poll_unsettled _ _ _ _ Hs H0).
    match goal with
    | |- context [wait_for_endpoint_in_service _ _ _ _ ?u] =>
        destruct (IH u) as (t' & Hrun & Hcount)
    end.
    + intros i Hi. rewrite !requests_of_app. cbn.
      match goal with
      | |- unsettled (resp ?k) =>
          replace k with (requests_of describe t + S i)%nat by lia
      end.
      apply Hall. lia.
    + exists t'. split; [exact Hrun|].
      rewrite Hcount, !requests_of_app. cbn. lia.
Qed.

(** After [n] unsettled answers and a settled one, the loop returns after
    exactly [n + 1] polls. *)
Lemma endpoint_wait_returns resp name :
  answered_in_turn E describe resp ->
  forall n fuel t,
    (forall i, (i < n)%nat ->
               unsettled (resp (requests_of describe t + i)%nat)) ->
    settled (resp (requests_of describe t + n)%nat) ->
    (n < fuel)%nat ->
    exists t',
      wait_for_endpoint_in_service E region fuel name t = (Done tt, t')
      /\ requests_of describe t' = (requests_of describe t + S n)%nat.
Proof.
  intros Hturn n. induction n as [|n IH]; intros fuel t Hall Hlast Hfuel;
    (destruct fuel as [|fuel]; [lia|]);
    pose proof (Hturn t (Call (sm region) describe
                              [("EndpointName", VStr name)]) eq_refl) as Hs.
  - rewrite Nat.add_0_r in Hlast.
    rewrite (endpoint_poll_settled _ _ _ _ Hs Hlast).
    eexists. split; [reflexivity|]. rewrite requests_of_app. cbn. lia.
  - assert (H0 : unsettled (resp (requests_of describe t))).
    { specialize (Hall O ltac:(lia)). now rewrite Nat.add_0_r in Hall. }
    rewrite (endpoint_poll_unsettled _ _ _ _ Hs H0).
    match goal with
    | |- context [wait_for_endpoint_in_service _ _ _ _ ?u] =>
        destruct (IH fuel u) as (t' & Hrun & Hcount)
    end.
    + intros i Hi. rewrite !requests_of_app. cbn.
      match goal with
      | |- unsettled (resp ?k) =>
          replace k with (requests_of describe t + S i)%nat by lia
      end.
      apply Hall. lia.
    + rewrite !requests_of_app. cbn.
      match goal with
      | |- settled (resp ?k) =>
          replace k with (requests_of describe t + S n)%nat by lia
      end.
      exact Hlast.
    + lia.
    + exists t'. split; [exact Hrun|].
      rewrite Hcount, !requests_of_app. cbn. lia.
Qed.

(** C4, as amended: for every sequence [resp] of answers of
    [describe_endpoint], [wait_for_endpoint_in_service] stops polling and
    returns as soon as the endpoint status is ["InService"] or ["Failed"];
    as long as the status is anything else it keeps polling. *)
Theorem endpoint_wait_ends_on_in_service_or_failed
        (name : string) (resp : nat -> gmap string value) :
  answered_in_turn E describe resp ->
  (forall fuel,
      (forall i, (i < fuel)%nat -> unsettled (resp i)) ->
      exists t,
        wait_for_endpoint_in_service E region fuel name [] = (OutOfFuel, t)
        /\ requests_of describe t = fuel)
  /\ (forall n fuel,
         (forall i, (i < n)%nat -> unsettled (resp i)) ->
         settled (resp n) ->
         (n < fuel)%nat ->
         exists t,
           wait_for_endpoint_in_service E region fuel name [] = (Done tt, t)
           /\ requests_of describe t = S n).
Proof.
  intros Hturn. split.
  - intros fuel Hall.
    destruct (endpoint_wait_still_polling resp name Hturn fuel [] Hall)
      as (t & Hrun & Hc).
    exists t. split; [exact Hrun | exact Hc].
  - intros n fuel Hall Hlast Hfuel.
    destruct (endpoint_wait_returns resp name Hturn n fuel [] Hall Hlast Hfuel)
      as (t & Hrun & Hc).
    exists t. split; [exact Hrun | exact Hc].
Qed.

End EndpointWait.

(** ** The endpoint configuration of the shadow-variant notebook *)

Section ShadowConfig.

Variable E : env.
Variable region : value.

Import ShadowVariant.

(** The two model names differ, whatever the clock read: the first goes on
    with a dash where the second has the digit 2. *)
Lemma model_names_differ now now2 : model_name now <> model_name2 now2.
Proof.
  unfold model_name, model_name2. intros H. cbn in H.
  repeat (injection H as _ H). discriminate H.
Qed.

(** C6: the cell sends one [create_endpoint_config] request; its
    [ProductionVariants] is a list of exactly one variant, with
    [InitialVariantWeight] 1, its [ShadowProductionVariants] is a list of
    exactly one variant, with [InitialVariantWeight] 0.5, and the two
    variants name different models. *)
Theorem shadow_config_one_production_one_shadow
        (now1 now2 now : string) (t : trace) :
  exists kwargs a pv sv n1 n2,
    snd (create_shadow_endpoint_config E region (model_name now1)
                                       (model_name2 now2) now t)
    = t ++ [Request (Call (sm region) "create_endpoint_config" kwargs) a]
    /\ kwarg "ProductionVariants" kwargs = Some (VList [VDict pv])
    /\ kwarg "ShadowProductionVariants" kwargs = Some (VList [VDict sv])
    /\ pv !! "InitialVariantWeight" = Some (VInt 1)
    /\ sv !! "InitialVariantWeight" = Some (VFloat 0.5%float)
    /\ pv !! "ModelName" = Some (VStr n1)
    /\ sv !! "ModelName" = Some (VStr n2)
    /\ n1 <> n2.
Proof.
  unfold create_shadow_endpoint_config. cbv zeta.
  unfold bind at 1. change (getattr _ _ t) with (Done tt, t). cbv iota beta.
  unfold bind at 1. unfold invoke. cbv zeta.
  match goal with
  | |- context [service E t ?rq] =>
      exists (call_kwargs rq), (service E t rq)
  end.
  do 2 eexists. exists (model_name now1), (model_name2 now2).
  split.
  - destruct (service E t _) as [r|code msg]; [|reflexivity].
    unfold bind, item, py_getitem.
    destruct (r !! "EndpointConfigArn"); reflexivity.
  - cbn [call_kwargs kwarg String.eqb Ascii.eqb Bool.eqb].
    repeat (split; [reflexivity|]). apply model_names_differ.
Qed.

End ShadowConfig.

(** ** The rescaling step of [visualize_cogt] *)

Section Visualize.

Variable E : env.
Variable region : value.
Variables bucket prefix : string.

Import Geospatial.







End Visualize.

(** ** Which effects a piece of code can add *)

Section Emits.

Context {A B : Type}.
Variable P : effect -> Prop.

Lemma emits_ret (a : A) : emits P (ret a).
Proof. intros t. exists []. split; [now rewrite app_nil_r | constructor]. Qed.

Lemma emits_raise e : emits P (@raise A e).
Proof. intros t. exists []. split; [now rewrite app_nil_r | constructor]. Qed.

Lemma emits_lift (r : exn + A) : emits P (lift r).
Proof. destruct r; [apply emits_raise | apply emits_ret]. Qed.

Lemma emits_bind (c : M A) (k : A -> M B) :
  emits P c -> (forall a, emits P (k a)) -> emits P (bind c k).
Proof.
  intros Hc Hk t. destruct (Hc t) as (t1 & H1 & HP1). unfold bind.
  destruct (c t) as [[a| e |] u]; cbn [snd] in H1; subst u.
  - destruct (Hk a (t ++ t1)) as (t2 & H2 & HP2).
    exists (t1 ++ t2). rewrite H2, app_assoc. split; [reflexivity|].
    now apply Forall_app.
  - exists t1. now split.
  - exists t1. now split.
Qed.

Lemma emits_try_except (c : M A) handles (h : exn -> M A) :
  emits P c -> (forall e, emits P (h e)) -> emits P (try_except c handles h).
Proof.
  intros Hc Hh t. destruct (Hc t) as (t1 & H1 & HP1). unfold try_except.
  destruct (c t) as [[a| e |] u]; cbn [snd] in H1; subst u.
  - exists t1. now split.
  - destruct (handles e); [|exists t1; now split].
    destruct (Hh e (t ++ t1)) as (t2 & H2 & HP2).
    exists (t1 ++ t2). rewrite H2, app_assoc. split; [reflexivity|].
    now apply Forall_app.
  - exists t1. now split.
Qed.



End Emits.

Section EmitsBasic.

Variable P : effect -> Prop.

Lemma emits_emit e : P e -> emits P (emit e).
Proof.
  intros He t. exists [e]. split; [reflexivity | now repeat constructor].
Qed.

Lemma emits_log l m : P (Log l m) -> emits P (log l m).
Proof. apply emits_emit. Qed.

Lemma emits_sleep n : P (Sleep n) -> emits P (sleep n).
Proof. apply emits_emit. Qed.


Lemma emits_getattr c m : emits P (getattr c m).
Proof.
  unfold getattr. destruct (has_method c m);
    [apply emits_ret | apply emits_raise].
Qed.

Lemma emits_invoke E c m kw :
  (forall a, P (Request (Call c m kw) a)) -> emits P (invoke E c m kw).
Proof.
  intros H t. unfold invoke. cbv zeta.
  exists [Request (Call c m kw) (service E t (Call c m kw))].
  split; [|now repeat constructor].
  now destruct (service E t (Call c m kw)).
Qed.

Lemma emits_py_getitem v key : emits P (py_getitem v key).
Proof.
  unfold py_getitem.
  destruct v as [| | | | | |d]; try apply emits_raise.
  destruct (d !! key); [apply emits_ret | apply emits_raise].
Qed.

Lemma emits_item d key : emits P (item d key).
Proof. apply emits_py_getitem. Qed.

Lemma emits_py_iter v : emits P (py_iter v).
Proof.
  unfold py_iter. destruct v; first [apply emits_ret | apply emits_raise].
Qed.

Lemma emits_loads E v : emits P (loads E v).
Proof.
  unfold loads. destruct v; first [apply emits_lift | apply emits_raise].
Qed.

Lemma emits_literal_eval E v : emits P (literal_eval E v).
Proof.
  unfold literal_eval. destruct v; first [apply emits_lift | apply emits_raise].
Qed.

End EmitsBasic.

Create HintDb emits.

#[export] Hint Resolve emits_ret emits_raise emits_lift emits_getattr
  emits_py_getitem emits_item emits_py_iter emits_loads emits_literal_eval
  : emits.

(** Takes a goal [emits P c] apart along the structure of [c]. *)
Ltac emits_step :=
  match goal with
  | |- emits _ (bind _ _) => apply emits_bind; [|intros ?]
  | |- emits _ (if ?b then _ else _) => destruct b
  | |- emits _ (match ?x with Some _ => _ | None => _ end) => destruct x
  | |- emits _ (log _ _) => apply emits_log
  | |- emits _ (sleep _) => apply emits_sleep
  | |- emits _ (invoke _ _ _ _) => apply emits_invoke; intros ?
  | |- emits _ _ => solve [auto with emits]
  end.

(** ** The cloud function [lambda_handler] *)

Section Handler.

Variable E : env.

Import EojLambda.

Lemma has_key_some (d : gmap string value) key v :
  d !! key = Some v -> has_key d key = true.
Proof. intros H. apply has_key_true. now exists v. Qed.

Lemma has_key_none (d : gmap string value) key :
  d !! key = None -> has_key d key = false.
Proof. apply has_key_false. Qed.

(** The region is read without any effect: the event's, or the default. *)
Lemma region_read (event : gmap string value) t :
  exists region,
    (if has_key event "region" then item event "region"
     else ret (VStr "us-west-2")) t = (Done region, t).
Proof.
  destruct (event !! "region") as [v|] eqn:Hr.
  - exists v. rewrite (has_key_some _ _ _ Hr). now apply item_some.
  - exists (VStr "us-west-2"). now rewrite (has_key_none _ _ Hr).
Qed.

(** The body of the first [try], once the region is read. *)
Lemma dispatch_run (event : gmap string value) t :
  exists region,
    dispatch E event t
    = (let gsClient := Client "sagemaker-geospatial" region in
       if has_key event "eoj_name" then
         bind (create_eoj E gsClient event) (fun r => ret (Some r))
       else if has_key event "eoj_output_config" then
         bind (export_eoj E gsClient event) (fun r => ret (Some r))
       else if has_key event "Records" then
         bind (log Debug (WillCheck (json_dumps E event)))
              (fun _ =>
                 bind (item event "Records")
                      (fun records =>
                         bind (py_iter records)
                              (fun records' =>
                                 check_records E region gsClient records' None)))
       else ret None) t.
Proof.
  destruct (region_read event t) as (region & Hr). exists region.
  unfold dispatch. now rewrite (bind_done _ _ _ _ _ Hr).
Qed.





(** *** Which action a run performs *)











End Handler.

(** ** The callback branch, record by record *)

Section Callback.

Variable E : env.
Variable region : value.

Import EojLambda.

Local Abbreviation gs := (Client "sagemaker-geospatial" region).
Local Abbreviation sagemaker := (Client "sagemaker" region).
Local Abbreviation get := "get_earth_observation_job".

(** A record is decoded and its job polled; the callback follows from the
    answer [r]. *)
Lemma check_record_polls record token eoj_arn t r :
  callback_record E record token eoj_arn ->
  service E (t ++ [Log Info (Checking (py_str E eoj_arn))])
          (Call gs get [("Arn", eoj_arn)]) = ApiOk r ->
  check_record E region gs record t
  = bind (report_status E region token r) (fun _ => ret r)
         (t ++ [Log Info (Checking (py_str E eoj_arn));
                Request (Call gs get [("Arn", eoj_arn)]) (ApiOk r)]).
Proof.
  intros (d & p & a & s & -> & Hbody & Hloads & Htoken & Hargs & Harn) Hs.
  unfold check_record.
  fold (item d "body"). rewrite (bind_item _ _ _ _ _ Hbody).
  cbn [loads]. rewrite Hloads. cbn [lift]. rewrite bind_ret.
  fold (item p "token"). rewrite (bind_item _ _ _ _ _ Htoken).
  fold (item p "arguments"). rewrite (bind_item _ _ _ _ _ Hargs).
  fold (item a "eoj_arn"). rewrite (bind_item _ _ _ _ _ Harn).
  rewrite bind_log, bind_getattr by reflexivity.
  rewrite bind_invoke, Hs. now rewrite <- app_assoc.
Qed.

(** A job whose status is ["COMPLETED"]: the success signal is sent for the
    record's token. *)
Lemma completed_job_sends_success record token eoj_arn t r :
  callback_record E record token eoj_arn ->
  service E (t ++ [Log Info (Checking (py_str E eoj_arn))])
          (Call gs get [("Arn", eoj_arn)]) = ApiOk r ->
  says r "Status" "COMPLETED" ->
  exists a,
    snd (check_record E region gs record t)
    = t ++ [Log Info (Checking (py_str E eoj_arn));
            Request (Call gs get [("Arn", eoj_arn)]) (ApiOk r);
            Log Info EojCompleted;
            Request (Call sagemaker "send_pipeline_execution_step_success"
                          [("CallbackToken", token);
                           ("OutputParameters",
                            VList [VDict {[ "Name" := VStr "eoj_status";
                                            "Value" := VStr "COMPLETED" ]}])])
                    a]
    /\ fst (check_record E region gs record t)
       = match a with
         | ApiOk _ => Done r
         | ApiError code msg => Raised (ClientError code msg)
         end.
Proof.
  intros Hrec Hs Hst.
  rewrite (check_record_polls _ _ _ _ _ Hrec Hs). unfold report_status.
  run. change (eq_str (VStr "COMPLETED") "COMPLETED") with true.
  run. rewrite bind_invoke.
  match goal with
  | |- context [service E ?u ?c] => exists (service E u c);
                                    destruct (service E u c)
  end; run; cbn [fst snd]; rewrite <- !app_assoc; split; reflexivity.
Qed.

(** A job whose status is ["SUCCEEDED"]: the method looked up on the
    client does not exist, so no signal is sent and [AttributeError]
    leaves the loop. *)
Lemma succeeded_export_raises record token eoj_arn t r :
  callback_record E record token eoj_arn ->
  service E (t ++ [Log Info (Checking (py_str E eoj_arn))])
          (Call gs get [("Arn", eoj_arn)]) = ApiOk r ->
  says r "Status" "SUCCEEDED" ->
  check_record E region gs record t
  = (Raised (AttributeError "send_pipeline_execution_step_sucess"),
     t ++ [Log Info (Checking (py_str E eoj_arn));
           Request (Call gs get [("Arn", eoj_arn)]) (ApiOk r);
           Log Info ExportSucceeded]).
Proof.
  intros Hrec Hs Hst.
  rewrite (check_record_polls _ _ _ _ _ Hrec Hs). unfold report_status.
  run. change (eq_str (VStr "SUCCEEDED") "COMPLETED") with false.
  run. change (eq_str (VStr "SUCCEEDED") "SUCCEEDED") with true.
  run. now rewrite <- !app_assoc.
Qed.

(** A job whose status is ["FAILED"]: the failure signal is sent for the
    record's token, with the job's error details as the reason. *)
Lemma failed_job_sends_failure record token eoj_arn t r details :
  callback_record E record token eoj_arn ->
  service E (t ++ [Log Info (Checking (py_str E eoj_arn))])
          (Call gs get [("Arn", eoj_arn)]) = ApiOk r ->
  says r "Status" "FAILED" ->
  r !! "ErrorDetails" = Some details ->
  exists a,
    snd (check_record E region gs record t)
    = t ++ [Log Info (Checking (py_str E eoj_arn));
            Request (Call gs get [("Arn", eoj_arn)]) (ApiOk r);
            Log Info EojFailed;
            Request (Call sagemaker "send_pipeline_execution_step_failure"
                          [("CallbackToken", token);
                           ("FailureReason", details)])
                    a]
    /\ fst (check_record E region gs record t)
       = match a with
         | ApiOk _ => Done r
         | ApiError code msg => Raised (ClientError code msg)
         end.
Proof.
  intros Hrec Hs Hst Hdet.
  rewrite (check_record_polls _ _ _ _ _ Hrec Hs). unfold report_status.
  run. change (eq_str (VStr "FAILED") "COMPLETED") with false.
  run. change (eq_str (VStr "FAILED") "SUCCEEDED") with false.
  run. change (eq_str (VStr "FAILED") "FAILED") with true.
  run. rewrite bind_invoke.
  match goal with
  | |- context [service E ?u ?c] => exists (service E u c);
                                    destruct (service E u c)
  end; run; cbn [fst snd]; rewrite <- !app_assoc; split; reflexivity.
Qed.


End Callback.

(** ** A finished export and the callback *)

Section FinishedExport.

Variable E : env.

Import EojLambda.

(** C2, where the code departs from it: when the first record's job has
    status ["SUCCEEDED"], the handler looks up
    [send_pipeline_execution_step_sucess] on the orchestration client, which
    has no such method; [AttributeError] leaves the handler and no
    request, success signal or other, reaches the orchestration service. *)
Theorem succeeded_export_gets_no_success_signal
        (event : gmap string value) (record : value) (rest : list value)
        (token eoj_arn : value) (r : gmap string value) :
  event !! "eoj_name" = None ->
  event !! "eoj_output_config" = None ->
  event !! "Records" = Some (VList (record :: rest)) ->
  callback_record E record token eoj_arn ->
  (forall t c, call_method c = "get_earth_observation_job" ->
               service E t c = ApiOk r) ->
  says r "Status" "SUCCEEDED" ->
  exists t,
    lambda_handler E event []
    = (Raised (AttributeError "send_pipeline_execution_step_sucess"), t)
    /\ existsb to_sagemaker t = false.
Proof.
  intros Hname Hout Hrecs Hrec Hpoll Hst.
  destruct (dispatch_run E event []) as (region & Hd). cbv zeta in Hd.
  rewrite (has_key_none _ _ Hname), (has_key_none _ _ Hout),
    (has_key_some _ _ _ Hrecs) in Hd.
  rewrite bind_log, (bind_item _ _ _ _ _ Hrecs) in Hd.
  cbn [py_iter] in Hd. rewrite bind_ret in Hd. cbn [check_records] in Hd.
  erewrite bind_raised in Hd
    by (apply (succeeded_export_raises E region record token eoj_arn _ r);
        [exact Hrec | now apply Hpoll | exact Hst]).
  eexists. split.
  - unfold lambda_handler. unfold bind at 1. unfold try_except at 1.
    rewrite Hd. reflexivity.
  - reflexivity.
Qed.

End FinishedExport.

(** ** The export-monitoring loop *)

Section Monitoring.

Variable E : env.
Variable region : value.
Variables role bucket prefix : string.

Import Geospatial.

Local Abbreviation gs := (gsClient region).
Local Abbreviation get := "get_earth_observation_job".
Local Abbreviation check_eoj' := (check_eoj E region role bucket prefix).
Local Abbreviation for_each_eoj' := (for_each_eoj E region role bucket prefix).
Local Abbreviation monitor' := (monitor E region role bucket prefix).



(** One poll of one job, by cases on the answer. *)
Lemma check_eoj_run j eoj st t :
  check_eoj' j eoj st t
  = let rq := Call gs get [("Arn", eoj)] in
    let t1 := t ++ [Request rq (service E t rq)] in
    match service E t rq with
    | ApiError code msg => (Raised (ClientError code msg), t1)
    | ApiOk r =>
        match r !! "Status" with
        | None => (Raised (KeyError "Status"), t1)
        | Some v =>
            if eq_str v "COMPLETED" then
              match r !! "ExportStatus" with
              | None =>
                  match eoj_suffixes !! j with
                  | Some suffix =>
                      bind (export_earth_observation_job
                              E region eoj role bucket prefix suffix)
                           (fun _ => ret st) t1
                  | None =>
                      (Raised (IndexError "list index out of range"), t1)
                  end
              | Some es =>
                  if eq_str es "IN_PROGRESS" then
                    (Done (<[ j := "Exporting" ]> st), t1)
                  else if eq_str es "SUCCEEDED" then
                    (Done (<[ j := "Exported" ]> st), t1)
                  else (Raised (Exception "Error exporting"), t1)
              end
            else if eq_str v "IN_PROGRESS" then
              (Done (<[ j := "In progress" ]> st), t1)
            else (Raised (Exception "Error with the EOJ"), t1)
        end
    end.
Proof.
  cbv zeta. unfold check_eoj.
  rewrite bind_getattr by reflexivity. rewrite bind_invoke.
  destruct (service E t _) as [r|code msg]; [|reflexivity].
  destruct (r !! "Status") as [v|] eqn:Hv; [|now run].
  run. destruct (eq_str v "COMPLETED").
  - destruct (r !! "ExportStatus") as [es|] eqn:Hes.
    + rewrite (has_key_some _ _ _ Hes). cbn [negb]. run.
      destruct (eq_str es "IN_PROGRESS"); [reflexivity|]. run.
      now destruct (eq_str es "SUCCEEDED").
    + rewrite (has_key_none _ _ Hes). cbn [negb].
      destruct (eoj_suffixes !! j); now run.
  - run. now destruct (eq_str v "IN_PROGRESS").
Qed.



(** A check never runs out of budget: it has no loop. *)
Lemma check_eoj_no_fuel j eoj st t t' :
  check_eoj' j eoj st t <> (OutOfFuel, t').
Proof.
  rewrite check_eoj_run. cbv zeta.
  destruct (service E t _) as [r|code msg]; [|discriminate].
  destruct (r !! "Status") as [v|]; [|discriminate].
  destruct (eq_str v "COMPLETED").
  - destruct (r !! "ExportStatus") as [es|].
    + destruct (eq_str es "IN_PROGRESS"); [discriminate|].
      destruct (eq_str es "SUCCEEDED"); discriminate.
    + destruct (eoj_suffixes !! j) as [suffix|]; [|discriminate].
      destruct (export_run E region eoj role bucket prefix suffix
                  (t ++ [Request (Call gs get [("Arn", eoj)]) (ApiOk r)]))
        as (rq & Hm & Hrun).
      unfold bind. rewrite Hrun.
      destruct (service E _ rq) as [r'|]; [destruct (r' !! "Arn")|];
        discriminate.
  - destruct (eq_str v "IN_PROGRESS"); discriminate.
Qed.


(** *** Entries that read ["Exported"] *)






(** *** Polled strings outside the known set *)









(** *** Polls from the known set *)


Lemma suffix_exists j : (j < 3)%nat -> exists s, eoj_suffixes !! j = Some s.
Proof. destruct j as [|[|[|j]]]; [eauto ..|lia]. Qed.






End Monitoring.

(** ** Code that stops at the first breach of an invariant *)

Section Guarded.

Import Terms.

Context {A B : Type}.
Variable I : trace -> Prop.
Variable S : exn -> trace -> Prop.

Lemma guarded_silent (c : M A) :
  (forall t, snd (c t) = t) -> guarded I S c.
Proof.
  intros Hc t res t' Ht Hrun. left.
  specialize (Hc t). rewrite Hrun in Hc. cbn in Hc. now subst.
Qed.

Lemma guarded_bind (c : M A) (k : A -> M B) :
  guarded I S c -> (forall a, guarded I S (k a)) -> guarded I S (bind c k).
Proof.
  intros Hc Hk t res t' Ht Hrun. unfold bind in Hrun.
  destruct (c t) as [[a|e|] t1] eqn:Hct.
  - destruct (Hc t _ _ Ht Hct) as [H1|(e & [=] & _)].
    now apply (Hk a t1).
  - injection Hrun as <- <-.
    destruct (Hc t _ _ Ht Hct) as [H1|(e' & [= <-] & HS)]; [now left|].
    right. now exists e.
  - injection Hrun as <- <-.
    destruct (Hc t _ _ Ht Hct) as [H1|(e' & [=] & _)]. now left.
Qed.

End Guarded.

Section GuardedBasic.

Import Terms.

Variable I : trace -> Prop.
Variable S : exn -> trace -> Prop.

Lemma guarded_ret {A} (a : A) : guarded I S (ret a).
Proof. now apply guarded_silent. Qed.

Lemma guarded_raise {A} e : guarded I S (@raise A e).
Proof. now apply guarded_silent. Qed.

Lemma guarded_lift {A} (r : exn + A) : guarded I S (lift r).
Proof. destruct r; [apply guarded_raise | apply guarded_ret]. Qed.

Lemma guarded_getattr c m : guarded I S (getattr c m).
Proof.
  unfold getattr. destruct (has_method c m);
    [apply guarded_ret | apply guarded_raise].
Qed.

Lemma guarded_py_getitem v key : guarded I S (py_getitem v key).
Proof.
  unfold py_getitem.
  destruct v as [| | | | | |d]; try apply guarded_raise.
  destruct (d !! key); [apply guarded_ret | apply guarded_raise].
Qed.

Lemma guarded_item d key : guarded I S (item d key).
Proof. apply guarded_py_getitem. Qed.

Lemma guarded_py_iter v : guarded I S (py_iter v).
Proof.
  unfold py_iter. destruct v; first [apply guarded_ret | apply guarded_raise].
Qed.

Lemma guarded_loads E v : guarded I S (loads E v).
Proof.
  unfold loads. destruct v; first [apply guarded_lift | apply guarded_raise].
Qed.

Lemma guarded_literal_eval E v : guarded I S (literal_eval E v).
Proof.
  unfold literal_eval.
  destruct v; first [apply guarded_lift | apply guarded_raise].
Qed.

Lemma guarded_emit e :
  (forall t, I t -> I (t ++ [e])) -> guarded I S (emit e).
Proof.
  intros He t res t' Ht Hrun. injection Hrun as <- <-. left. now apply He.
Qed.

Lemma guarded_invoke E c m kw :
  (forall t r, I t -> I (t ++ [Request (Call c m kw) (ApiOk r)])) ->
  (forall t code msg,
      I t ->
      S (ClientError code msg)
        (t ++ [Request (Call c m kw) (ApiError code msg)])) ->
  guarded I S (invoke E c m kw).
Proof.
  intros Hok Herr t res t' Ht Hrun. unfold invoke in Hrun. cbv zeta in Hrun.
  destruct (service E t (Call c m kw)) as [r|code msg];
    injection Hrun as <- <-.
  - left. now apply Hok.
  - right. eexists. split; [reflexivity|]. now apply Herr.
Qed.

End GuardedBasic.

Create HintDb guarded.

#[export] Hint Resolve guarded_ret guarded_raise guarded_lift guarded_getattr
  guarded_py_getitem guarded_item guarded_py_iter guarded_loads
  guarded_literal_eval : guarded.

(** Takes a goal [guarded I S c] apart along the structure of [c]. *)
Ltac guarded_step :=
  match goal with
  | |- Terms.guarded _ _ (bind _ _) => apply guarded_bind; [|intros ?]
  | |- Terms.guarded _ _ (if ?b then _ else _) => destruct b
  | |- Terms.guarded _ _ (match ?x with Some _ => _ | None => _ end) =>
      destruct x
  | |- Terms.guarded _ _ (log _ _) => apply guarded_emit
  | |- Terms.guarded _ _ (sleep _) => apply guarded_emit
  | |- Terms.guarded _ _ (invoke _ _ _ _) => apply guarded_invoke
  | |- Terms.guarded _ _ _ => solve [auto with guarded]
  end.

(** ** More on the cloud function *)

Section HandlerRegion.

Variable E : env.

Import EojLambda Terms.

Lemma region_read_is (event : gmap string value) t :
  (if has_key event "region" then item event "region"
   else ret (VStr "us-west-2")) t = (Done (region_of event), t).
Proof.
  unfold region_of. destruct (event !! "region") as [v|] eqn:Hr; cbn.
  - rewrite (has_key_some _ _ _ Hr). now apply item_some.
  - now rewrite (has_key_none _ _ Hr).
Qed.

(** The body of the first [try], with the region it works in. *)
Lemma dispatch_in_region (event : gmap string value) t :
  dispatch E event t
  = (let region := region_of event in
     let gsClient := Client "sagemaker-geospatial" region in
     if has_key event "eoj_name" then
       bind (create_eoj E gsClient event) (fun r => ret (Some r))
     else if has_key event "eoj_output_config" then
       bind (export_eoj E gsClient event) (fun r => ret (Some r))
     else if has_key event "Records" then
       bind (log Debug (WillCheck (json_dumps E event)))
            (fun _ =>
               bind (item event "Records")
                    (fun records =>
                       bind (py_iter records)
                            (fun records' =>
                               check_records E region gsClient records' None)))
     else ret None) t.
Proof.
  unfold dispatch. now rewrite (bind_done _ _ _ _ _ (region_read_is event t)).
Qed.

Lemma create_eoj_in_region region (event : gmap string value) :
  emits (in_region region)
        (create_eoj E (Client "sagemaker-geospatial" region) event).
Proof. unfold create_eoj. repeat emits_step; first [exact I | reflexivity]. Qed.

Lemma export_eoj_in_region region (event : gmap string value) :
  emits (in_region region)
        (export_eoj E (Client "sagemaker-geospatial" region) event).
Proof. unfold export_eoj. repeat emits_step; first [exact I | reflexivity]. Qed.

Lemma check_records_in_region region records :
  forall response,
    emits (in_region region)
          (check_records E region (Client "sagemaker-geospatial" region)
                         records response).
Proof.
  induction records as [|record rest IH]; intros response;
    cbn [check_records].
  - apply emits_ret.
  - apply emits_bind; [|intros r; apply IH].
    unfold check_record, report_status.
    repeat emits_step; first [exact I | reflexivity].
Qed.

Lemma dispatch_stays_in_region (event : gmap string value) :
  emits (in_region (region_of event)) (dispatch E event).
Proof.
  intros t. rewrite dispatch_in_region. cbv zeta.
  destruct (has_key event "eoj_name").
  { apply emits_bind; [apply create_eoj_in_region | intros r; apply emits_ret]. }
  destruct (has_key event "eoj_output_config").
  { apply emits_bind; [apply export_eoj_in_region | intros r; apply emits_ret]. }
  destruct (has_key event "Records"); [|apply emits_ret].
  apply emits_bind; [now apply emits_log | intros _].
  apply emits_bind; [apply emits_item | intros records].
  apply emits_bind; [apply emits_py_iter | intros records'].
  apply check_records_in_region.
Qed.

(** X1: every request of an invocation, to the geospatial service and to
    the orchestration service alike, goes to a client of the region named
    by the event's top-level ["region"] key, and of ["us-west-2"] when the
    event has no such key (as the events of the queue, which carry their
    arguments inside the record bodies). *)
Theorem handler_requests_stay_in_region (event : gmap string value) :
  Forall (in_region (region_of event)) (snd (lambda_handler E event [])).
Proof.
  assert (H : emits (in_region (region_of event)) (lambda_handler E event)).
  { unfold lambda_handler. apply emits_bind.
    - apply emits_try_except; [apply dispatch_stays_in_region|].
      intros x. unfold on_client_error. destruct x; apply emits_raise.
    - intros r. apply emits_bind.
      + apply emits_try_except; [|intros x; apply emits_ret].
        destruct r; [apply emits_ret | apply emits_raise].
      + intros r'. repeat emits_step; exact I. }
  destruct (H []) as (t' & -> & HP). exact HP.
Qed.

End HandlerRegion.

Section HandlerRefusal.

Variable E : env.

Import EojLambda Terms.

Lemma lambda_handler_finish (event : gmap string value) :
  lambda_handler E event
  = bind (try_except (dispatch E event) is_ClientError on_client_error)
         (finish E).
Proof. reflexivity. Qed.

Lemma no_refusal_log t l m : no_refusal t -> no_refusal (t ++ [Log l m]).
Proof.
  intros H c code msg Hin. apply in_app_or in Hin as [Hin|[Hin|[]]].
  - now apply (H c code msg).
  - discriminate.
Qed.

Lemma no_refusal_sleep t n : no_refusal t -> no_refusal (t ++ [Sleep n]).
Proof.
  intros H c code msg Hin. apply in_app_or in Hin as [Hin|[Hin|[]]].
  - now apply (H c code msg).
  - discriminate.
Qed.

Lemma no_refusal_accepted t c r :
  no_refusal t -> no_refusal (t ++ [Request c (ApiOk r)]).
Proof.
  intros H c' code msg Hin. apply in_app_or in Hin as [Hin|[Hin|[]]].
  - now apply (H c' code msg).
  - discriminate.
Qed.

Lemma refusal_stops t c code msg :
  no_refusal t ->
  stopped_at_refusal (ClientError code msg)
                     (t ++ [Request c (ApiError code msg)]).
Proof. intros H. now exists t, c, code, msg. Qed.

(** Closes the side conditions of the steps: an effect that is no refusal
    keeps the trace free of refusals, and a refusal stops the code. *)
Ltac refusal_side :=
  first [ intros; now apply no_refusal_log
        | intros; now apply no_refusal_sleep
        | intros; now apply no_refusal_accepted
        | intros; now apply refusal_stops ].

Lemma check_records_guarded region gsClient records :
  forall response,
    guarded no_refusal stopped_at_refusal
            (check_records E region gsClient records response).
Proof.
  induction records as [|record rest IH]; intros response;
    cbn [check_records].
  - apply guarded_ret.
  - apply guarded_bind; [|intros r; apply IH].
    unfold check_record, report_status. repeat guarded_step; refusal_side.
Qed.

Lemma dispatch_guarded (event : gmap string value) :
  guarded no_refusal stopped_at_refusal (dispatch E event).
Proof.
  unfold dispatch. apply guarded_bind.
  { destruct (has_key event "region");
      [apply guarded_item | apply guarded_ret]. }
  intros region. cbv zeta.
  destruct (has_key event "eoj_name").
  { apply guarded_bind; [|intros r; apply guarded_ret].
    unfold create_eoj. repeat guarded_step; refusal_side. }
  destruct (has_key event "eoj_output_config").
  { apply guarded_bind; [|intros r; apply guarded_ret].
    unfold export_eoj. repeat guarded_step; refusal_side. }
  destruct (has_key event "Records"); [|apply guarded_ret].
  apply guarded_bind; [apply guarded_emit; refusal_side | intros _].
  apply guarded_bind; [apply guarded_item | intros records].
  apply guarded_bind; [apply guarded_py_iter | intros records'].
  apply check_records_guarded.
Qed.

(** What [finish] adds to the trace is at most a log line. *)
Lemma finish_trace response t :
  no_refusal t -> no_refusal (snd (finish E response t)).
Proof.
  intros Ht. unfold finish.
  destruct response as [r|]; unfold try_except, bind; cbn.
  - unfold item, py_getitem. destruct (r !! "Arn") as [arn|] eqn:Harn; cbn.
    + rewrite Harn. cbn. now apply no_refusal_log.
    + exact Ht.
  - exact Ht.
Qed.

(** X2: when a service refuses a request of an invocation with an error
    code and message, that request is the last effect of the invocation,
    and the handler raises the exception with the text
    [EOJ or export call failed: <code>, <message>]: the service's error
    never leaves the handler as such, and nothing is retried. *)
Theorem refused_request_ends_invocation
        (event : gmap string value) (c : call) (code msg : string) :
  In (Request c (ApiError code msg)) (snd (lambda_handler E event [])) ->
  fst (lambda_handler E event [])
  = Raised (Exception ("EOJ or export call failed: " +:+ code
                       +:+ ", " +:+ msg))
  /\ last (snd (lambda_handler E event []))
     = Some (Request c (ApiError code msg)).
Proof.
  rewrite lambda_handler_finish. unfold bind at 1 2 3, try_except at 1 2 3.
  destruct (dispatch E event []) as [[r|e|] t1] eqn:Hd;
    (destruct (dispatch_guarded event [] _ _ ltac:(now intros ? ? ? [])
                 Hd) as [Hfree|(e' & He' & t0 & c' & code' & msg' & -> & H0 & ->)]).
  - intros Hin. exfalso.
    now apply (finish_trace r t1 Hfree c code msg).
  - discriminate He'.
  - intros Hin. exfalso. revert Hin.
    destruct (is_ClientError e); [|now apply (Hfree c code msg)].
    unfold on_client_error. destruct e; now apply (Hfree c code msg).
  - injection He' as ->. cbn. intros Hin.
    apply in_app_or in Hin as [Hin|[[= <- <- <-]|[]]].
    + now destruct (H0 c code msg).
    + split; [reflexivity | apply last_snoc].
  - intros Hin. now destruct (Hfree c code msg).
  - discriminate He'.
Qed.

End HandlerRefusal.

Section HandlerSuccess.

Variable E : env.

Import EojLambda Terms.








End HandlerSuccess.

Section HandlerBatch.

Variable E : env.

Import EojLambda Terms.





(** The tokens the records of a batch decode to. *)
Local Abbreviation tokens_of records :=
  (omap (fun record => fst <$> decode E record) records).





End HandlerBatch.

(** ** More on the geospatial notebook *)

Section VisualizeMore.

Variable E : env.
Variable region : value.
Variables bucket prefix : string.

Import Geospatial Terms.

(** X8: the number of images [visualize_cogt]'s loop shows.  With
    [number] at least 1 it shows the first [number] images of the band
    among the listed objects, or all of them when there are fewer; with
    [number] zero or negative the counter never meets it and every image
    of the band is shown. *)
Theorem show_images_count
        (read : string -> array Z) (band : string) (number : Z)
        (keys : list string) :
  length (show_images bucket read band number 0 keys)
  = if (1 <=? number)%Z
    then Nat.min (Z.to_nat number) (length (images_of band keys))
    else length (images_of band keys).
Proof.
  assert (H : forall i,
             length (show_images bucket read band number i keys)
             = if (i <? number)%Z
               then Nat.min (Z.to_nat (number - i))
                            (length (images_of band keys))
               else length (images_of band keys)).
  { induction keys as [|key rest IH]; intros i;
      cbn [show_images images_of List.filter].
    - cbn. destruct (i <? number)%Z; [|reflexivity]. lia.
    - fold (images_of band rest).
      destruct (contains (band +:+ ".tif") key); [|apply IH].
      cbn [length].
      destruct (Z.eqb_spec (i + 1) number) as [Heq|Hne].
      + cbn [length]. destruct (Z.ltb_spec i number); lia.
      + rewrite IH.
        destruct (Z.ltb_spec (i + 1) number), (Z.ltb_spec i number); lia. }
  rewrite H. replace (number - 0)%Z with number by lia.
  now destruct (Z.ltb_spec 0 number), (Z.leb_spec 1 number); try lia.
Qed.

Lemma after_first_slash_spec a b :
  contains "/" a = false ->
  after_first_slash (a +:+ "/" +:+ b) = Some b.
Proof.
  induction a as [|c a IH]; intros Ha; [reflexivity|].
  cbn [contains String.prefix] in Ha.
  change (String c a +:+ "/" +:+ b) with (String c (a +:+ "/" +:+ b)).
  cbn [after_first_slash].
  destruct (Ascii.eqb_spec c "/"%char) as [->|Hc].
  - exfalso. cbn in Ha. destruct a; discriminate Ha.
  - apply IH. apply orb_false_iff in Ha. apply Ha.
Qed.

(** X9: [visualize_cogt] polls the job once.  When the job's export
    status is ["SUCCEEDED"] it lists the objects under
    [{prefix}/{task}/{id}/output/consolidated/], [id] being what follows
    the first slash of the ARN, and shows images of that listing only;
    with any other export status it lists and shows nothing. *)
Theorem visualize_cogt_lists_job_folder
        (objects : string -> list string) (read : string -> array Z)
        (task a b band : string) (number : Z) (t : trace)
        (r : gmap string value) (v : value) :
  contains "/" a = false ->
  service E t (Call (gsClient region) "get_earth_observation_job"
                    [("Arn", VStr (a +:+ "/" +:+ b))]) = ApiOk r ->
  r !! "ExportStatus" = Some v ->
  visualize_cogt E region bucket prefix objects read task
                 (a +:+ "/" +:+ b) band number t
  = (Done (if eq_str v "SUCCEEDED" then
             show_images bucket read band number 0
               (objects (prefix +:+ "/" +:+ task +:+ "/" +:+ b
                         +:+ "/output/consolidated/"))
           else []),
     t ++ [Request (Call (gsClient region) "get_earth_observation_job"
                         [("Arn", VStr (a +:+ "/" +:+ b))]) (ApiOk r)]).
Proof.
  intros Ha Hs Hv. unfold visualize_cogt.
  rewrite bind_getattr by reflexivity. rewrite bind_invoke, Hs. run.
  destruct (eq_str v "SUCCEEDED").
  - rewrite (after_first_slash_spec a b Ha). run. reflexivity.
  - run. reflexivity.
Qed.

End VisualizeMore.

Section MonitoringMore.

Variable E : env.
Variable region : value.
Variables role bucket prefix : string.

Import Geospatial Terms.

Local Abbreviation gs := (gsClient region).
Local Abbreviation get := "get_earth_observation_job".
Local Abbreviation export := "export_earth_observation_job".

Lemma ready_polls_app t t' :
  ready_polls (t ++ t') = (ready_polls t + ready_polls t')%nat.
Proof.
  induction t as [|e t IH]; [reflexivity|].
  destruct e as [c a| |]; cbn [app ready_polls]; try exact IH.
  destruct (_ && _); cbn; now rewrite IH.
Qed.

Lemma balanced_refl t : balanced t t.
Proof. exists O. split; lia. Qed.

Lemma balanced_trans t t' t'' :
  balanced t t' -> balanced t' t'' -> balanced t t''.
Proof. intros (k & H1 & H2) (k' & H3 & H4). exists (k + k')%nat. lia. Qed.

Lemma balanced_poll t kw a :
  ready a = false ->
  balanced t (t ++ [Request (Call gs get kw) a]).
Proof.
  intros Hr. exists O. rewrite requests_of_app, ready_polls_app.
  cbn [requests_of ready_polls call_method]. rewrite Hr. cbn. lia.
Qed.

Lemma balanced_export t kw a rq a' :
  ready a = true ->
  call_method rq = export ->
  balanced t ((t ++ [Request (Call gs get kw) a]) ++ [Request rq a']).
Proof.
  intros Hr Hm. exists 1%nat. rewrite !requests_of_app, !ready_polls_app.
  cbn [requests_of ready_polls call_method]. rewrite Hm, Hr. cbn. lia.
Qed.

Lemma balanced_sleep t n : balanced t (t ++ [Sleep n]).
Proof.
  exists O. rewrite requests_of_app, ready_polls_app. cbn. lia.
Qed.

Lemma check_eoj_balanced j eoj st t :
  (j < 3)%nat ->
  balanced t (snd (check_eoj E region role bucket prefix j eoj st t)).
Proof.
  intros Hj. rewrite check_eoj_run. cbv zeta.
  destruct (service E t _) as [r|code msg] eqn:Hs;
    [|now apply balanced_poll].
  destruct (r !! "Status") as [v|] eqn:Hv.
  2:{ apply balanced_poll. unfold ready. now rewrite Hv. }
  destruct (eq_str v "COMPLETED") eqn:Hc.
  - destruct (r !! "ExportStatus") as [es|] eqn:Hes.
    + assert (Hr : ready (ApiOk r) = false).
      { unfold ready. now rewrite Hv, Hc, (has_key_some _ _ _ Hes). }
      destruct (eq_str es "IN_PROGRESS"); [|destruct (eq_str es "SUCCEEDED")];
        now apply balanced_poll.
    + destruct (suffix_exists j Hj) as (suffix & ->).
      destruct (export_run E region eoj role bucket prefix suffix
                  (t ++ [Request (Call gs get [("Arn", eoj)]) (ApiOk r)]))
        as (rq & Hm & Hrun).
      assert (Hr : ready (ApiOk r) = true).
      { unfold ready. now rewrite Hv, Hc, (has_key_none _ _ Hes). }
      unfold bind. rewrite Hrun.
      destruct (service E _ rq) as [r'|]; [destruct (r' !! "Arn")|];
        now apply balanced_export.
  - assert (Hr : ready (ApiOk r) = false).
    { unfold ready. now rewrite Hv, Hc. }
    destruct (eq_str v "IN_PROGRESS"); now apply balanced_poll.
Qed.

Lemma for_each_eoj_balanced rest :
  forall j st t,
    (j + length rest <= 3)%nat ->
    balanced t (snd (for_each_eoj E region role bucket prefix j rest st t)).
Proof.
  induction rest as [|eoj rest IH]; intros j st t Hj; cbn [for_each_eoj].
  - apply balanced_refl.
  - cbn [length] in Hj.
    pose proof (check_eoj_balanced j eoj st t ltac:(lia)) as Hc.
    unfold bind.
    destruct (check_eoj E region role bucket prefix j eoj st t)
      as [[st1| |] t1]; cbn [snd] in *; [|exact Hc ..].
    apply (balanced_trans _ _ _ Hc). apply IH. lia.
Qed.

Lemma monitor_balanced EOJs :
  (length EOJs <= 3)%nat ->
  forall fuel st t,
    balanced t (snd (monitor E region role bucket prefix fuel EOJs st t)).
Proof.
  intros Hlen fuel. induction fuel as [|fuel IH]; intros st t;
    cbn [monitor]; destruct (all_exported st); cbn [negb];
    try apply balanced_refl.
  pose proof (for_each_eoj_balanced EOJs 0 st t ltac:(lia)) as Hr.
  unfold bind at 1.
  destruct (for_each_eoj E region role bucket prefix 0 EOJs st t)
    as [[st1| |] t1]; cbn [snd] in *; [|exact Hr ..].
  destruct (all_exported st1); [exact Hr|].
  rewrite bind_sleep. apply (balanced_trans _ _ _ Hr).
  apply (balanced_trans _ (t1 ++ [Sleep 30])); [apply balanced_sleep|].
  apply IH.
Qed.

(** X10: whatever the service answers and however the loop ends, the
    export-monitoring loop has sent exactly one export request for every
    poll that found a job ["COMPLETED"] with no ["ExportStatus"] in the
    answer: a job that is still described so at the next round is exported
    again. *)
Theorem one_export_per_ready_poll
        (fuel : nat) (ts_eoj_arn s_eoj_arn lc_eoj_arn : value) :
  requests_of export
    (snd (export_monitoring E region role bucket prefix fuel
                            ts_eoj_arn s_eoj_arn lc_eoj_arn []))
  = ready_polls
      (snd (export_monitoring E region role bucket prefix fuel
                              ts_eoj_arn s_eoj_arn lc_eoj_arn [])).
Proof.
  unfold export_monitoring. cbv zeta.
  destruct (monitor_balanced [ts_eoj_arn; s_eoj_arn; lc_eoj_arn]
              ltac:(cbn; lia) fuel
              (replicate (length [ts_eoj_arn; s_eoj_arn; lc_eoj_arn]) "")
              []) as (k & H1 & H2).
  rewrite H1, H2. reflexivity.
Qed.

End MonitoringMore.

Section StartJobMore.

Variable E : env.
Variable region : value.

Import Geospatial Terms.

Local Abbreviation gs := (gsClient region).
Local Abbreviation get := "get_earth_observation_job".

Lemma wait_paced arn :
  forall fuel r t,
    exists t1,
      snd (wait_while_in_progress E region fuel arn r t) = t ++ t1
      /\ paced 60 get t1 = true.
Proof.
  induction fuel as [|fuel IH]; intros r t; cbn [wait_while_in_progress];
    (destruct (r !! "Status") as [v|] eqn:Hv;
     [rewrite (bind_item _ _ _ _ _ Hv)
     |rewrite (bind_item_missing _ _ _ _ Hv); exists []; split;
      [now rewrite app_nil_r | reflexivity]]);
    (destruct (eq_str v "IN_PROGRESS");
     [|exists []; split; [now rewrite app_nil_r | reflexivity]]).
  - exists []. split; [now rewrite app_nil_r | reflexivity].
  - rewrite bind_sleep, bind_getattr by reflexivity. rewrite bind_invoke.
    destruct (service E _ _) as [r'|code msg].
    + destruct (IH r' ((t ++ [Sleep 60])
                         ++ [Request (Call gs get [("Arn", arn)]) (ApiOk r')]))
        as (t1 & -> & Hp).
      exists ([Sleep 60; Request (Call gs get [("Arn", arn)]) (ApiOk r')]
                ++ t1).
      split; [now rewrite <- !app_assoc|]. exact Hp.
    + eexists [Sleep 60; Request (Call gs get [("Arn", arn)]) _].
      split; [now rewrite <- !app_assoc | reflexivity].
Qed.

(** X11: whatever the service answers and within any budget,
    [start_earth_observation_job] sends the start request first and then,
    for as long as it runs, pauses 60 seconds before each status poll, the
    first one included: a job that completes at once is still waited for
    during a minute. *)
Theorem start_job_pauses_before_each_poll
        (fuel : nat) (eoj_name role : string) (ic jc : value) :
  exists a t1,
    snd (start_earth_observation_job E region fuel eoj_name role ic jc [])
    = Request (Call gs "start_earth_observation_job"
                    [("Name", VStr eoj_name);
                     ("ExecutionRoleArn", VStr role);
                     ("InputConfig", ic);
                     ("JobConfig", jc)]) a :: t1
    /\ paced 60 get t1 = true.
Proof.
  unfold start_earth_observation_job.
  rewrite bind_getattr by reflexivity. rewrite bind_invoke.
  destruct (service E [] _) as [started|code msg] eqn:Hs.
  2:{ do 2 eexists. split; [reflexivity | reflexivity]. }
  destruct (started !! "Arn") as [arn|] eqn:Harn.
  2:{ rewrite (bind_item_missing _ _ _ _ Harn).
      do 2 eexists. split; reflexivity. }
  rewrite (bind_item _ _ _ _ _ Harn).
  destruct (wait_paced arn fuel {[ "Status" := VStr "IN_PROGRESS" ]}
              ([] ++ [Request (Call gs "start_earth_observation_job"
                                    [("Name", VStr eoj_name);
                                     ("ExecutionRoleArn", VStr role);
                                     ("InputConfig", ic);
                                     ("JobConfig", jc)]) (ApiOk started)]))
    as (t1 & Ht & Hp).
  exists (ApiOk started), t1. split; [|exact Hp].
  unfold bind.
  destruct (wait_while_in_progress E region fuel arn _ _) as [[[]| |] u];
    cbn [snd] in *; exact Ht.
Qed.

(** X12: a status poll that the service refuses ends
    [start_earth_observation_job]: after [n] answers in progress and a
    refusal, the function raises the service's error after exactly
    [n + 1] polls, without polling again. *)
Theorem start_job_stops_at_refused_poll
        (eoj_name role : string) (ic jc : value)
        (started : gmap string value) (arn : value)
        (ans : nat -> api_result) (n fuel : nat) (code msg : string) :
  service E [] (Call gs "start_earth_observation_job"
                     [("Name", VStr eoj_name);
                      ("ExecutionRoleArn", VStr role);
                      ("InputConfig", ic);
                      ("JobConfig", jc)]) = ApiOk started ->
  started !! "Arn" = Some arn ->
  replies_in_turn E get ans ->
  (forall i, (i < n)%nat ->
             exists r, ans i = ApiOk r /\ says r "Status" "IN_PROGRESS") ->
  ans n = ApiError code msg ->
  (n < fuel)%nat ->
  exists t,
    start_earth_observation_job E region fuel eoj_name role ic jc []
    = (Raised (ClientError code msg), t)
    /\ requests_of get t = S n.
Proof.
  intros Hs Harn Hturn Hall Hn Hfuel.
  destruct (start_then_wait E region fuel _ _ _ _ _ _ Hs Harn)
    as (t0 & H0 & ->).
  assert (Hw : forall n fuel r t,
             says r "Status" "IN_PROGRESS" ->
             (forall i, (i < n)%nat ->
                        exists r', ans (requests_of get t + i)%nat = ApiOk r'
                                   /\ says r' "Status" "IN_PROGRESS") ->
             ans (requests_of get t + n)%nat = ApiError code msg ->
             (n < fuel)%nat ->
             exists t',
               wait_while_in_progress E region fuel arn r t
               = (Raised (ClientError code msg), t')
               /\ requests_of get t' = (requests_of get t + S n)%nat).
  { clear - Hturn. intros n.
    induction n as [|n IH]; intros fuel r t Hr Hall Hlast Hfuel;
      (destruct fuel as [|fuel]; [lia|]);
      pose proof (Hturn (t ++ [Sleep 60])
                        (Call gs get [("Arn", arn)]) eq_refl) as Hs;
      rewrite requests_of_app, Nat.add_0_r in Hs.
    - rewrite Nat.add_0_r in Hlast. rewrite Hlast in Hs.
      cbn [wait_while_in_progress]. run.
      change (eq_str (VStr "IN_PROGRESS") "IN_PROGRESS") with true. run.
      rewrite bind_invoke, Hs. eexists. split; [reflexivity|].
      rewrite !requests_of_app. cbn. lia.
    - destruct (Hall O ltac:(lia)) as (r' & Hr' & Hst').
      rewrite Nat.add_0_r in Hr'. rewrite Hr' in Hs.
      rewrite (wait_poll E region _ _ _ _ _ Hr Hs).
      match goal with
      | |- context [wait_while_in_progress _ _ _ _ _ ?u] =>
          destruct (IH fuel r' u) as (t' & Hrun & Hcount)
      end.
      + exact Hst'.
      + intros i Hi. rewrite !requests_of_app. cbn.
        match goal with
        | |- exists _, ans ?k = _ /\ _ =>
            replace k with (requests_of get t + S i)%nat by lia
        end.
        apply Hall. lia.
      + rewrite !requests_of_app. cbn.
        match goal with
        | |- ans ?k = _ =>
            replace k with (requests_of get t + S n)%nat by lia
        end.
        exact Hlast.
      + lia.
      + exists t'. split; [exact Hrun|].
        rewrite Hcount, !requests_of_app. cbn. lia. }
  destruct (Hw n fuel {[ "Status" := VStr "IN_PROGRESS" ]} t0)
    as (t & Hrun & Hc).
  - reflexivity.
  - now rewrite H0.
  - now rewrite H0.
  - exact Hfuel.
  - exists t. rewrite (bind_raised _ _ _ _ _ Hrun). split; [easy|lia].
Qed.

End StartJobMore.

Section EndpointMore.

Variable E : env.
Variable region : value.

Import ShadowVariant Terms.

Local Abbreviation describe := "describe_endpoint".

(** X13: a [describe_endpoint] call that the service refuses ends
    [wait_for_endpoint_in_service]: after [n] answers that are neither
    ["InService"] nor ["Failed"] and a refusal, the function raises the
    service's error after exactly [n + 1] calls. *)
Theorem endpoint_wait_stops_at_refusal
        (name : string) (ans : nat -> api_result)
        (n fuel : nat) (code msg : string) :
  replies_in_turn E describe ans ->
  (forall i, (i < n)%nat -> exists r, ans i = ApiOk r /\ unsettled r) ->
  ans n = ApiError code msg ->
  (n < fuel)%nat ->
  exists t,
    wait_for_endpoint_in_service E region fuel name []
    = (Raised (ClientError code msg), t)
    /\ requests_of describe t = S n.
Proof.
  intros Hturn Hall Hn Hfuel.
  assert (Hw : forall n fuel t,
             (forall i, (i < n)%nat ->
                        exists r, ans (requests_of describe t + i)%nat
                                  = ApiOk r /\ unsettled r) ->
             ans (requests_of describe t + n)%nat = ApiError code msg ->
             (n < fuel)%nat ->
             exists t',
               wait_for_endpoint_in_service E region fuel name t
               = (Raised (ClientError code msg), t')
               /\ requests_of describe t'
                  = (requests_of describe t + S n)%nat).
  { clear - Hturn. intros n.
    induction n as [|n IH]; intros fuel t Hall Hlast Hfuel;
      (destruct fuel as [|fuel]; [lia|]);
      pose proof (Hturn t (Call (sm region) describe
                                [("EndpointName", VStr name)]) eq_refl) as Hs.
    - rewrite Nat.add_0_r in Hlast. rewrite Hlast in Hs.
      cbn [wait_for_endpoint_in_service].
      rewrite bind_getattr by reflexivity. rewrite bind_invoke, Hs.
      eexists. split; [reflexivity|]. rewrite requests_of_app. cbn. lia.
    - destruct (Hall O ltac:(lia)) as (r & Hr & Hun).
      rewrite Nat.add_0_r in Hr. rewrite Hr in Hs.
      rewrite (endpoint_poll_unsettled E region _ _ _ _ Hs Hun).
      match goal with
      | |- context [wait_for_endpoint_in_service _ _ _ _ ?u] =>
          destruct (IH fuel u) as (t' & Hrun & Hcount)
      end.
      + intros i Hi. rewrite !requests_of_app. cbn.
        match goal with
        | |- exists _, ans ?k = _ /\ _ =>
            replace k with (requests_of describe t + S i)%nat by lia
        end.
        apply Hall. lia.
      + rewrite !requests_of_app. cbn.
        match goal with
        | |- ans ?k = _ =>
            replace k with (requests_of describe t + S n)%nat by lia
        end.
        exact Hlast.
      + lia.
      + exists t'. split; [exact Hrun|].
        rewrite Hcount, !requests_of_app. cbn. lia. }
  destruct (Hw n fuel []) as (t & Hrun & Hc);
    [exact Hall | exact Hn | exact Hfuel |].
  exists t. split; [exact Hrun | exact Hc].
Qed.

End EndpointMore.

(** ** The shadow-variant notebook: sending the test rows *)

Section Traffic.

Variable E : env.
Variable region : value.

Import ShadowTraffic TrafficTerms Terms.

Local Abbreviation send := "invoke_endpoint".

Lemma calls_of_app t t' : calls_of (t ++ t') = calls_of t ++ calls_of t'.
Proof.
  induction t as [|e t IH]; [reflexivity|].
  destruct e; cbn [app calls_of]; now rewrite IH.
Qed.

Lemma append_nil_l (s : string) : EmptyString +:+ s = s.
Proof. reflexivity. Qed.

Lemma append_cons c (a b : string) : String c a +:+ b = String c (a +:+ b).
Proof. reflexivity. Qed.

(** The payload of a row is the row without its trailing line feeds. *)
Lemma rstrip_newline_spec row :
  ends_with_line_feed (rstrip_newline row) = false
  /\ exists k, row = rstrip_newline row +:+ line_feeds k.
Proof.
  induction row as [|c row [IH1 (k & IH2)]]; [split; [reflexivity|now exists O]|].
  cbn [rstrip_newline].
  destruct (rstrip_newline row) as [|c' rest] eqn:Hr.
  - rewrite append_nil_l in IH2.
    destruct (Ascii.eqb_spec c (Ascii.ascii_of_nat 10)) as [->|Hc].
    + split; [reflexivity|]. exists (S k).
      rewrite append_nil_l. cbn [line_feeds]. now rewrite <- IH2.
    + split.
      * cbn [ends_with_line_feed]. now apply Ascii.eqb_neq.
      * exists k. rewrite append_cons, append_nil_l. now rewrite <- IH2.
  - split; [exact IH1|]. exists k. rewrite append_cons. now rewrite <- IH2.
Qed.

(** Up to ten sends of one payload: the sends stop at the first refusal. *)
Lemma send_times_run n name payload :
  forall t,
    exists k t1,
      snd (send_times E region n name payload t) = t ++ t1
      /\ calls_of t1 = replicate k (row_request region name payload)
      /\ (k <= n)%nat
      /\ ((fst (send_times E region n name payload t) = Done tt
           /\ k = n /\ no_refusal t1)
          \/ (exists code msg t0,
                 fst (send_times E region n name payload t)
                 = Raised (ClientError code msg)
                 /\ (1 <= k)%nat
                 /\ t1 = t0 ++ [Request (row_request region name payload)
                                        (ApiError code msg)]
                 /\ no_refusal t0)).
Proof.
  induction n as [|n IH]; intros t; cbn [send_times].
  - exists O, []. rewrite app_nil_r. repeat split; [lia|]. left.
    repeat split. intros c code msg [].
  - rewrite bind_invoke. fold (row_request region name payload).
    destruct (service E t _) as [r|code msg].
    + destruct (IH (t ++ [Request (row_request region name payload)
                                  (ApiOk r)]))
        as (k & t1 & Ht & Hc & Hk & Hres).
      exists (S k), (Request (row_request region name payload) (ApiOk r)
                       :: t1).
      split; [now rewrite Ht, <- app_assoc|].
      split; [cbn; now rewrite Hc|]. split; [lia|].
      destruct Hres as [(Hd & -> & Hfree)|(code & msg & t0 & Hr & Hk1 & -> & H0)].
      * left. repeat split; [exact Hd|].
        intros c code msg [Hin|Hin]; [discriminate | now apply (Hfree c code msg)].
      * right. exists code, msg,
          (Request (row_request region name payload) (ApiOk r) :: t0).
        repeat split; [exact Hr | lia |].
        intros c code' msg' [Hin|Hin];
          [discriminate | now apply (H0 c code' msg')].
    + exists 1%nat, [Request (row_request region name payload)
                             (ApiError code msg)].
      repeat split; [lia|]. right. exists code, msg, [].
      repeat split; [lia|]. intros c code' msg' [].
Qed.

(** X14: with [should_raise_exp] left at [False], [invoke_endpoint] never
    raises, whatever the endpoint answers: every row of the file is tried,
    with at least one and at most ten requests, each carrying the row
    without its trailing line feeds; a refusal gives up the remaining sends
    of that row only. *)
Theorem invoke_endpoint_tries_every_row
        (rows : list string) (name : string) (t : trace) :
  exists ks t1,
    invoke_endpoint E region rows name false t = (Done tt, t ++ t1)
    /\ length ks = length rows
    /\ Forall (fun k => 1 <= k <= 10)%nat ks
    /\ calls_of t1 = row_requests region name ks rows.
Proof.
  unfold invoke_endpoint. revert t.
  induction rows as [|row rows IH]; intros t; cbn [invoke_endpoint_rows].
  - exists [], []. rewrite app_nil_r. repeat split. constructor.
  - cbv zeta.
    destruct (send_times_run 10 name (rstrip_newline row) t)
      as (k & t1 & Ht & Hc & Hk & Hres).
    assert (Htry : exists k', (1 <= k' <= 10)%nat /\ k' = k /\
               try_except (send_times E region 10 name (rstrip_newline row))
                          (fun _ => true)
                          (fun e => if false then raise e else ret tt) t
               = (Done tt, t ++ t1)).
    { unfold try_except.
      destruct (send_times E region 10 name (rstrip_newline row) t)
        as [res u]. cbn [fst snd] in *. subst u.
      destruct Hres as [(-> & -> & _)|(code & msg & t0 & -> & Hk1 & _)].
      - exists 10%nat. repeat split; lia.
      - exists k. repeat split; lia. }
    destruct Htry as (k' & Hk' & -> & Htry).
    rewrite (bind_done _ _ _ _ _ Htry).
    destruct (IH (t ++ t1)) as (ks & t2 & Hrun & Hlen & Hks & Hcalls).
    exists (k :: ks), (t1 ++ t2). rewrite Hrun, <- app_assoc.
    split; [reflexivity|]. split; [cbn; now rewrite Hlen|].
    split; [now constructor|].
    rewrite calls_of_app, Hc, Hcalls. reflexivity.
Qed.

(** When every request is accepted, the ten sends of a payload all go
    out. *)
Lemma send_times_accepted n name payload :
  accepted E send ->
  forall t,
    exists t1,
      send_times E region n name payload t = (Done tt, t ++ t1)
      /\ calls_of t1 = replicate n (row_request region name payload).
Proof.
  intros Hacc. induction n as [|n IH]; intros t; cbn [send_times].
  - exists []. now rewrite app_nil_r.
  - rewrite bind_invoke. fold (row_request region name payload).
    destruct (Hacc t (row_request region name payload) eq_refl) as [r ->].
    destruct (IH (t ++ [Request (row_request region name payload)
                                (ApiOk r)])) as (t1 & -> & Hc).
    exists (Request (row_request region name payload) (ApiOk r) :: t1).
    rewrite <- app_assoc. split; [reflexivity|]. cbn. now rewrite Hc.
Qed.

(** X15: when the endpoint accepts every request, [invoke_endpoint] sends
    each row ten times, row after row, in either mode. *)
Theorem invoke_endpoint_sends_ten_per_row
        (rows : list string) (name : string) (mode : bool) (t : trace) :
  accepted E send ->
  exists t1,
    invoke_endpoint E region rows name mode t = (Done tt, t ++ t1)
    /\ calls_of t1
       = flat_map (fun row =>
                     replicate 10 (row_request region name
                                               (rstrip_newline row)))
                  rows.
Proof.
  intros Hacc. unfold invoke_endpoint. revert t.
  induction rows as [|row rows IH]; intros t; cbn [invoke_endpoint_rows].
  - exists []. now rewrite app_nil_r.
  - cbv zeta.
    destruct (send_times_accepted 10 name (rstrip_newline row) Hacc t)
      as (t1 & Hsent & Hc).
    assert (Htry : try_except
                     (send_times E region 10 name (rstrip_newline row))
                     (fun _ => true)
                     (fun e => if mode then raise e else ret tt) t
                   = (Done tt, t ++ t1)).
    { unfold try_except. now rewrite Hsent. }
    rewrite (bind_done _ _ _ _ _ Htry).
    destruct (IH (t ++ t1)) as (t2 & Hrun & Hcalls).
    exists (t1 ++ t2). rewrite Hrun, <- app_assoc. split; [reflexivity|].
    cbn [flat_map]. rewrite calls_of_app, Hc, Hcalls. reflexivity.
Qed.

Lemma no_refusal_app t t' :
  no_refusal t -> no_refusal t' -> no_refusal (t ++ t').
Proof.
  intros H H' c code msg Hin. apply in_app_or in Hin.
  destruct Hin as [Hin|Hin]; [now apply (H c code msg) | now apply (H' c code msg)].
Qed.

(** X16: called with [should_raise_exp=True], [invoke_endpoint] stops at
    the first request the endpoint refuses and raises the error of that
    refusal; the rows after it are not sent.  Without a refusal it
    returns. *)
Theorem invoke_endpoint_reraises_first_refusal
        (rows : list string) (name : string) (t : trace) :
  exists t1,
    snd (invoke_endpoint E region rows name true t) = t ++ t1
    /\ ((fst (invoke_endpoint E region rows name true t) = Done tt
         /\ no_refusal t1)
        \/ (exists e,
               fst (invoke_endpoint E region rows name true t) = Raised e
               /\ stopped_at_refusal e t1)).
Proof.
  unfold invoke_endpoint. revert t.
  induction rows as [|row rows IH]; intros t; cbn [invoke_endpoint_rows].
  - exists []. rewrite app_nil_r. split; [reflexivity|]. left.
    split; [reflexivity|]. intros c code msg [].
  - cbv zeta.
    destruct (send_times_run 10 name (rstrip_newline row) t)
      as (k & t1 & Ht & Hc & Hk & Hres).
    destruct (send_times E region 10 name (rstrip_newline row) t)
      as [res u] eqn:Hsent. cbn [fst snd] in *. subst u.
    destruct Hres as [(-> & -> & Hfree)|(code & msg & t0 & -> & Hk1 & -> & H0)].
    + assert (Htry : try_except
                       (send_times E region 10 name (rstrip_newline row))
                       (fun _ => true)
                       (fun e => if true then raise e else ret tt) t
                     = (Done tt, t ++ t1)).
      { unfold try_except. now rewrite Hsent. }
      rewrite (bind_done _ _ _ _ _ Htry).
      destruct (IH (t ++ t1)) as (t2 & Ht2 & Hres).
      exists (t1 ++ t2). rewrite Ht2, <- app_assoc. split; [reflexivity|].
      destruct Hres as [(Hd & Hfree2)|(e & Hr & t3 & c & code & msg & -> & H3 & ->)].
      * left. split; [exact Hd|]. now apply no_refusal_app.
      * right. exists (ClientError code msg). split; [exact Hr|].
        exists (t1 ++ t3), c, code, msg. rewrite <- app_assoc.
        repeat split. now apply no_refusal_app.
    + assert (Htry : try_except
                       (send_times E region 10 name (rstrip_newline row))
                       (fun _ => true)
                       (fun e => if true then raise e else ret tt) t
                     = (Raised (ClientError code msg),
                        t ++ t0 ++ [Request (row_request region name
                                               (rstrip_newline row))
                                            (ApiError code msg)])).
      { unfold try_except. now rewrite Hsent. }
      rewrite (bind_raised _ _ _ _ _ Htry).
      eexists. split; [reflexivity|]. right.
      exists (ClientError code msg). split; [reflexivity|].
      exists t0, (row_request region name (rstrip_newline row)), code, msg.
      repeat split. exact H0.
Qed.

End Traffic.

(** ** The shadow-variant notebook: comparing the variants' metrics *)

Section Metrics.

Variable E : env.
Variable region : value.
Variables F P : Type.
Variable frame : value -> string -> string -> exn + F.
Variable merge_plot : F -> F -> exn + P.

Import ShadowTraffic TrafficTerms.

Local Abbreviation metrics_of :=
  (get_sagemaker_metrics E region F frame).

(** What a returning [get_sagemaker_metrics] has done: one accepted query
    to CloudWatch, and a frame only from a non-empty list of data points. *)
Lemma get_sagemaker_metrics_done name variant metric statistic s e t r t' :
  metrics_of name variant metric statistic s e t = (Done r, t') ->
  exists c a,
    t' = t ++ [Request c (ApiOk a)]
    /\ call_client c = cw region
    /\ call_method c = "get_metric_statistics"
    /\ kwarg "Dimensions" (call_kwargs c)
       = Some (VList [VDict {[ "Name" := VStr "EndpointName";
                               "Value" := VStr name ]};
                      VDict {[ "Name" := VStr "VariantName";
                               "Value" := VStr variant ]}])
    /\ match r with
       | None => True
       | Some f =>
           exists datapoints,
             a !! "Datapoints" = Some datapoints
             /\ datapoints <> VList []
             /\ frame datapoints statistic variant = inr f
       end.
Proof.
  unfold get_sagemaker_metrics. cbv zeta. rewrite bind_invoke.
  destruct (service E t _) as [a|code msg]; [|discriminate].
  destruct (a !! "Datapoints") as [dp|] eqn:Hdp.
  - rewrite (bind_item _ _ _ _ _ Hdp).
    destruct dp as [| | | | |l|d]; cbn [py_len];
      try (rewrite bind_raise; discriminate); rewrite bind_ret.
    + destruct (String.length s0 =? 0)%nat eqn:Hlen.
      * intros [= <- <-]. do 2 eexists. repeat split.
      * rewrite (bind_item _ _ _ _ _ Hdp).
        destruct (frame (VStr s0) statistic variant) as [x|f] eqn:Hf;
          cbn [lift]; [rewrite bind_raise; discriminate|].
        rewrite !bind_ret. intros [= <- <-]. do 2 eexists.
        repeat split. exists (VStr s0). split; [exact Hdp|split; [discriminate|exact Hf]].
    + destruct (length l =? 0)%nat eqn:Hlen.
      * intros [= <- <-]. do 2 eexists. repeat split.
      * rewrite (bind_item _ _ _ _ _ Hdp).
        destruct (frame (VList l) statistic variant) as [x|f] eqn:Hf;
          cbn [lift]; [rewrite bind_raise; discriminate|].
        rewrite !bind_ret. intros [= <- <-]. do 2 eexists.
        repeat split. exists (VList l). split; [exact Hdp|split; [|exact Hf]].
        intros [= ->]. discriminate.
    + destruct (size d =? 0)%nat eqn:Hlen.
      * intros [= <- <-]. do 2 eexists. repeat split.
      * rewrite (bind_item _ _ _ _ _ Hdp).
        destruct (frame (VDict d) statistic variant) as [x|f] eqn:Hf;
          cbn [lift]; [rewrite bind_raise; discriminate|].
        rewrite !bind_ret. intros [= <- <-]. do 2 eexists.
        repeat split. exists (VDict d). split; [exact Hdp|split; [discriminate|exact Hf]].
  - rewrite (bind_item_missing _ _ _ _ Hdp). discriminate.
Qed.

(** X17: [plot_endpoint_invocation_metrics] returns a plot only when
    CloudWatch answered both of its queries, the first for the production
    variant and the second for the shadow variant of the same endpoint,
    each with data points, and the plot is that of the two frames merged. *)
Theorem plot_needs_data_of_both_variants
        (name metric statistic : string) (start_time : option value)
        (ten_minutes_ago now : value) (t t' : trace) (p : P) :
  plot_endpoint_invocation_metrics E region F P frame merge_plot
    name metric statistic start_time ten_minutes_ago now t
  = (Done (Some p), t') ->
  exists c1 a1 c2 a2 d1 d2 f1 f2,
    t' = t ++ [Request c1 (ApiOk a1); Request c2 (ApiOk a2)]
    /\ call_method c1 = "get_metric_statistics"
    /\ call_method c2 = "get_metric_statistics"
    /\ kwarg "Dimensions" (call_kwargs c1)
       = Some (VList [VDict {[ "Name" := VStr "EndpointName";
                               "Value" := VStr name ]};
                      VDict {[ "Name" := VStr "VariantName";
                               "Value" :=
                                 VStr ShadowVariant.production_variant_name ]}])
    /\ kwarg "Dimensions" (call_kwargs c2)
       = Some (VList [VDict {[ "Name" := VStr "EndpointName";
                               "Value" := VStr name ]};
                      VDict {[ "Name" := VStr "VariantName";
                               "Value" :=
                                 VStr ShadowVariant.shadow_variant_name ]}])
    /\ a1 !! "Datapoints" = Some d1 /\ d1 <> VList []
    /\ a2 !! "Datapoints" = Some d2 /\ d2 <> VList []
    /\ frame d1 statistic ShadowVariant.production_variant_name = inr f1
    /\ frame d2 statistic ShadowVariant.shadow_variant_name = inr f2
    /\ merge_plot f1 f2 = inr p.
Proof.
  unfold plot_endpoint_invocation_metrics. cbv zeta.
  set (s := match start_time with Some s => s | None => ten_minutes_ago end).
  destruct (metrics_of name ShadowVariant.production_variant_name metric
                       statistic s now t) as [[r1| |] t1] eqn:H1;
    [|rewrite (bind_raised _ _ _ _ _ H1); discriminate
     |rewrite (bind_out_of_fuel _ _ _ _ H1); discriminate].
  rewrite (bind_done _ _ _ _ _ H1).
  destruct (metrics_of name ShadowVariant.shadow_variant_name metric
                       statistic s now t1) as [[r2| |] t2] eqn:H2;
    [|rewrite (bind_raised _ _ _ _ _ H2); discriminate
     |rewrite (bind_out_of_fuel _ _ _ _ H2); discriminate].
  rewrite (bind_done _ _ _ _ _ H2).
  apply get_sagemaker_metrics_done in H1, H2.
  destruct H1 as (c1 & a1 & -> & _ & Hm1 & Hd1 & Hr1).
  destruct H2 as (c2 & a2 & -> & _ & Hm2 & Hd2 & Hr2).
  destruct r1 as [f1|], r2 as [f2|]; unfold try_except;
    try (rewrite bind_raise; cbn; discriminate).
  - destruct (merge_plot f1 f2) as [x|q] eqn:Hq; cbn [lift].
    + rewrite bind_raise. cbn. discriminate.
    + rewrite !bind_ret. intros [= <- <-].
      destruct Hr1 as (d1 & Ha1 & Hn1 & Hf1).
      destruct Hr2 as (d2 & Ha2 & Hn2 & Hf2).
      exists c1, a1, c2, a2, d1, d2, f1, f2.
      rewrite <- app_assoc. repeat split; assumption.
  - unfold raise. cbn. discriminate.
  - unfold raise. cbn. discriminate.
  - unfold raise. cbn. discriminate.
Qed.

End Metrics.

(** ** The statements at sample worlds *)

Lemma scripted_answers_in_turn answer m resp jd jl pl rp :
  (forall k, answer m k = ApiOk (resp k)) ->
  answered_in_turn (Env (Samples.scripted answer) jd jl pl rp) m resp.
Proof.
  intros H t c Hm. cbn. unfold Samples.scripted. rewrite Hm. apply H.
Qed.

(** A job that is in progress for two polls and then completed: the
    function returns the ARN after the third poll. *)
Lemma start_job_returns_on_first_other_status_witness :
  exists t,
    Geospatial.start_earth_observation_job
      (Samples.world (Samples.job_service 2 "COMPLETED")) (VStr "us-west-2")
      5 "stackingjob" "role" (VDict ∅) (VDict ∅) []
    = (Done (VStr Samples.job_arn), t)
    /\ requests_of "get_earth_observation_job" t = 3%nat.
Proof.
  refine (proj2 (start_job_returns_on_first_other_status
                   (Samples.world (Samples.job_service 2 "COMPLETED"))
                   (VStr "us-west-2") "stackingjob" "role" (VDict ∅) (VDict ∅)
                   {[ "Arn" := VStr Samples.job_arn ]} (VStr Samples.job_arn)
                   (Samples.job_status 2 "COMPLETED") _ _ _) 2%nat 5%nat _ _ _).
  - reflexivity.
  - reflexivity.
  - apply scripted_answers_in_turn. reflexivity.
  - intros [|[|i]] Hi; [reflexivity | reflexivity | lia].
  - exists (VStr "COMPLETED"). split; reflexivity.
  - lia.
Defined.

(** An endpoint that is out of service for good: its status is not a
    creating/updating one from the first poll on, yet the wait never
    returns, whatever the budget. *)
Lemma endpoint_wait_out_of_service_forever :
  ~ (answered_in_turn
       (Samples.world (Samples.endpoint_service 0 "Creating" "OutOfService"))
       "describe_endpoint"
       (Samples.endpoint_status 0 "Creating" "OutOfService") ->
     (exists n s,
         says (Samples.endpoint_status 0 "Creating" "OutOfService" n)
              "EndpointStatus" s
         /\ creating_or_updating s = false) ->
     exists fuel t,
       ShadowVariant.wait_for_endpoint_in_service
         (Samples.world (Samples.endpoint_service 0 "Creating" "OutOfService"))
         (VStr "us-west-2") fuel "xgb-prod-shadow" []
       = (Done tt, t)).
Proof.
  intros Hclaim.
  assert (Hturn : answered_in_turn
                    (Samples.world
                       (Samples.endpoint_service 0 "Creating" "OutOfService"))
                    "describe_endpoint"
                    (Samples.endpoint_status 0 "Creating" "OutOfService")).
  { apply scripted_answers_in_turn. reflexivity. }
  destruct (Hclaim Hturn) as (fuel & t & Hdone).
  { exists O, "OutOfService". split; reflexivity. }
  destruct (endpoint_wait_still_polling _ (VStr "us-west-2") _
              "xgb-prod-shadow" Hturn fuel []) as (t' & Hrun & _).
  - intros i _. exists (VStr "OutOfService"). split; reflexivity.
  - rewrite Hrun in Hdone. discriminate.
Qed.

(** An endpoint that is creating for two polls and then in service. *)
Lemma endpoint_wait_ends_on_in_service_or_failed_witness :
  exists t,
    ShadowVariant.wait_for_endpoint_in_service
      (Samples.world (Samples.endpoint_service 2 "Creating" "InService"))
      (VStr "us-west-2") 4 "xgb-prod-shadow" []
    = (Done tt, t)
    /\ requests_of "describe_endpoint" t = 3%nat.
Proof.
  refine (proj2 (endpoint_wait_ends_on_in_service_or_failed
                   (Samples.world
                      (Samples.endpoint_service 2 "Creating" "InService"))
                   (VStr "us-west-2") "xgb-prod-shadow"
                   (Samples.endpoint_status 2 "Creating" "InService") _)
                2%nat 4%nat _ _ _).
  - apply scripted_answers_in_turn. reflexivity.
  - intros [|[|i]] Hi;
      [exists (VStr "Creating"); split; reflexivity
      | exists (VStr "Creating"); split; reflexivity | lia].
  - exists (VStr "InService"). split; reflexivity.
  - lia.
Defined.




(** A queue message for a job whose export has succeeded. *)
Lemma succeeded_export_gets_no_success_signal_witness :
  exists t,
    EojLambda.lambda_handler (Samples.callback_world "SUCCEEDED")
                             Samples.callback_event []
    = (Raised (AttributeError "send_pipeline_execution_step_sucess"), t)
    /\ existsb to_sagemaker t = false.
Proof.
  apply (succeeded_export_gets_no_success_signal
           (Samples.callback_world "SUCCEEDED") Samples.callback_event
           Samples.callback_record [] (VStr "tok-1") (VStr Samples.job_arn)
           (Samples.described "SUCCEEDED")).
  - vm_compute. reflexivity.
  - vm_compute. reflexivity.
  - vm_compute. reflexivity.
  - do 4 eexists. repeat split; vm_compute; reflexivity.
  - intros t c Hc. cbn. unfold Samples.scripted. rewrite Hc. reflexivity.
  - vm_compute. reflexivity.
Defined.





(** ** The further statements at sample worlds *)

Lemma scripted_replies_in_turn answer m ans jd jl pl rp :
  (forall k, answer m k = ans k) ->
  Terms.replies_in_turn (Env (Samples.scripted answer) jd jl pl rp) m ans.
Proof.
  intros H t c Hm. cbn. unfold Samples.scripted. rewrite Hm. apply H.
Qed.

(** The cloud-removal step when the service throttles: the start request
    is the last effect. *)
Lemma refused_request_ends_invocation_witness :
  fst (EojLambda.lambda_handler
         (PipelineSamples.pipeline_world PipelineSamples.throttling)
         PipelineSamples.cloud_removal_event [])
  = Raised (Exception
              "EOJ or export call failed: ThrottlingException, Rate exceeded")
  /\ last (snd (EojLambda.lambda_handler
                  (PipelineSamples.pipeline_world PipelineSamples.throttling)
                  PipelineSamples.cloud_removal_event []))
     = Some (Request
               (Call (Client "sagemaker-geospatial" (VStr "us-west-2"))
                     "start_earth_observation_job"
                     [("Name", VStr "cloudremoval-2023-01-01-00-00");
                      ("ExecutionRoleArn", VStr "geospatial-execution-role");
                      ("InputConfig", PipelineSamples.query);
                      ("JobConfig", PipelineSamples.cloud_removal)])
               (ApiError "ThrottlingException" "Rate exceeded")).
Proof.
  apply (refused_request_ends_invocation
           (PipelineSamples.pipeline_world PipelineSamples.throttling)
           PipelineSamples.cloud_removal_event
           (Call (Client "sagemaker-geospatial" (VStr "us-west-2"))
                 "start_earth_observation_job"
                 [("Name", VStr "cloudremoval-2023-01-01-00-00");
                  ("ExecutionRoleArn", VStr "geospatial-execution-role");
                  ("InputConfig", PipelineSamples.query);
                  ("JobConfig", PipelineSamples.cloud_removal)])
           "ThrottlingException" "Rate exceeded").
  vm_compute. right. right. left. reflexivity.
Defined.








(** The exported job of the notebook: the listing is that of the folder
    named by what follows the slash of the ARN. *)
Lemma visualize_cogt_lists_job_folder_witness :
  exists t,
    Geospatial.visualize_cogt
      (Samples.world Samples.exported_job) (VStr "us-west-2")
      "my-bucket" "sm-geospatial-e2e"
      Samples.bucket_objects Samples.raster
      "temp_stat"
      ("arn:aws:sagemaker-geospatial:us-west-2:111122223333:earth-observation-job"
       +:+ "/" +:+ "abc")
      "nir_mean" 4 []
    = (Done (Geospatial.show_images
               "my-bucket" Samples.raster "nir_mean" 4 0
               (Samples.bucket_objects
                  "sm-geospatial-e2e/temp_stat/abc/output/consolidated/")),
       t)
    /\ requests_of "get_earth_observation_job" t = 1%nat.
Proof.
  rewrite (visualize_cogt_lists_job_folder
             (Samples.world Samples.exported_job) (VStr "us-west-2")
             "my-bucket" "sm-geospatial-e2e"
             Samples.bucket_objects Samples.raster "temp_stat"
             "arn:aws:sagemaker-geospatial:us-west-2:111122223333:earth-observation-job"
             "abc" "nir_mean" 4 []
             {[ "Arn" := VStr Samples.job_arn;
                "Status" := VStr "COMPLETED";
                "ExportStatus" := VStr "SUCCEEDED" ]}
             (VStr "SUCCEEDED")).
  - eexists. split; reflexivity.
  - vm_compute. reflexivity.
  - reflexivity.
  - reflexivity.
Defined.

(** A job in progress for two polls, the third poll throttled. *)
Lemma start_job_stops_at_refused_poll_witness :
  exists t,
    Geospatial.start_earth_observation_job
      (Samples.world
         (PipelineSamples.refusing "get_earth_observation_job" 2
                                   "Status" "IN_PROGRESS"))
      (VStr "us-west-2") 5 "stackingjob" "role" (VDict ∅) (VDict ∅) []
    = (Raised (ClientError "ThrottlingException" "Rate exceeded"), t)
    /\ requests_of "get_earth_observation_job" t = 3%nat.
Proof.
  apply (start_job_stops_at_refused_poll
           (Samples.world
              (PipelineSamples.refusing "get_earth_observation_job" 2
                                        "Status" "IN_PROGRESS"))
           (VStr "us-west-2") "stackingjob" "role" (VDict ∅) (VDict ∅)
           {[ "Arn" := VStr (PipelineSamples.job "new") ]}
           (VStr (PipelineSamples.job "new"))
           (PipelineSamples.refused_after 2 "Status" "IN_PROGRESS")
           2%nat 5%nat "ThrottlingException" "Rate exceeded").
  - reflexivity.
  - reflexivity.
  - apply scripted_replies_in_turn. reflexivity.
  - intros [|[|i]] Hi;
      [eexists; split; reflexivity | eexists; split; reflexivity | lia].
  - reflexivity.
  - lia.
Defined.

(** An endpoint creating for two polls, the third call throttled. *)
Lemma endpoint_wait_stops_at_refusal_witness :
  exists t,
    ShadowVariant.wait_for_endpoint_in_service
      (Samples.world
         (PipelineSamples.refusing "describe_endpoint" 2
                                   "EndpointStatus" "Creating"))
      (VStr "us-west-2") 5 "xgb-prod-shadow" []
    = (Raised (ClientError "ThrottlingException" "Rate exceeded"), t)
    /\ requests_of "describe_endpoint" t = 3%nat.
Proof.
  apply (endpoint_wait_stops_at_refusal
           (Samples.world
              (PipelineSamples.refusing "describe_endpoint" 2
                                        "EndpointStatus" "Creating"))
           (VStr "us-west-2") "xgb-prod-shadow"
           (PipelineSamples.refused_after 2 "EndpointStatus" "Creating")
           2%nat 5%nat "ThrottlingException" "Rate exceeded").
  - apply scripted_replies_in_turn. reflexivity.
  - intros [|[|i]] Hi;
      [eexists; split; [reflexivity|exists (VStr "Creating"); split; reflexivity]
      | eexists; split; [reflexivity|exists (VStr "Creating"); split; reflexivity]
      | lia].
  - reflexivity.
  - lia.
Defined.

(** Two rows sent to an endpoint that accepts every request: twenty
    requests. *)
Lemma invoke_endpoint_sends_ten_per_row_witness :
  exists t1,
    ShadowTraffic.invoke_endpoint
      TrafficSamples.endpoint (VStr "us-west-2")
      TrafficSamples.rows "xgb-prod-shadow" true []
    = (Done tt, [] ++ t1)
    /\ TrafficTerms.calls_of t1
       = flat_map (fun row =>
                     replicate 10
                       (ShadowTraffic.row_request
                          (VStr "us-west-2") "xgb-prod-shadow"
                          (ShadowTraffic.rstrip_newline row)))
                  TrafficSamples.rows.
Proof.
  apply (invoke_endpoint_sends_ten_per_row
           TrafficSamples.endpoint (VStr "us-west-2")
           TrafficSamples.rows "xgb-prod-shadow" true []).
  intros t c Hc. eexists. reflexivity.
Defined.

(** Both variants have a data point in the window: the plot is that of
    the two frames. *)
Lemma plot_needs_data_of_both_variants_witness :
  exists p t',
    ShadowTraffic.plot_endpoint_invocation_metrics
      TrafficSamples.cloudwatch (VStr "us-west-2") _ _
      TrafficSamples.frame TrafficSamples.merge_plot
      "xgb-prod-shadow" "Invocations" "Sum" None
      (VStr "2023-01-01T00:00:00Z") (VStr "2023-01-01T00:10:00Z") []
    = (Done (Some p), t')
    /\ exists c1 a1 c2 a2 d1 d2 f1 f2,
      t' = [] ++ [Request c1 (ApiOk a1); Request c2 (ApiOk a2)]
      /\ a1 !! "Datapoints" = Some d1 /\ d1 <> VList []
      /\ a2 !! "Datapoints" = Some d2 /\ d2 <> VList []
      /\ TrafficSamples.frame d1 "Sum" ShadowVariant.production_variant_name
         = inr f1
      /\ TrafficSamples.frame d2 "Sum" ShadowVariant.shadow_variant_name
         = inr f2
      /\ TrafficSamples.merge_plot f1 f2 = inr p.
Proof.
  do 2 eexists. split; [vm_compute; reflexivity|].
  destruct (plot_needs_data_of_both_variants
              TrafficSamples.cloudwatch (VStr "us-west-2") _ _
              TrafficSamples.frame TrafficSamples.merge_plot
              "xgb-prod-shadow" "Invocations" "Sum" None
              (VStr "2023-01-01T00:00:00Z") (VStr "2023-01-01T00:10:00Z")
              [] _ _ ltac:(vm_compute; reflexivity))
    as (c1 & a1 & c2 & a2 & d1 & d2 & f1 & f2
        & Ht & _ & _ & _ & _ & H1 & H2 & H3 & H4 & H5 & H6 & H7).
  exists c1, a1, c2, a2, d1, d2, f1, f2. repeat split; assumption.
Defined.
